(** * eip4844-playground: the blob-transaction demonstration scripts

    Shallow embedding of the TypeScript scripts of the repository:
    - [Index]   : src/index.ts, [experimentWithBlob] with six experiments;
    - [Fusaka]  : the second experiment script, with eight experiments
                  (cell proofs and cell recovery of EIP-7594);
    - [EthersTx]: the ethers-based script, [main];
    - [ViemKzgProof], [ViemSend]: the two viem walkthrough scripts.

    The scripts are glue over three external libraries (viem or ethers,
    c-kzg, kzg-wasm).  The libraries are not part of the repository, so
    they enter as records of functions ([viem.lib], [cKzg.lib],
    [wasmKzg.lib], [ethers.lib]); every call that can throw returns a
    [Res].  What the
    scripts themselves do (sequencing, guards, comparisons, byte
    manipulation, array slicing, JavaScript built-ins) is defined here.
    Console output and the [process.hrtime] measurements do not influence
    control flow and are left out. *)

From Stdlib Require Import Strings.String Strings.Ascii Strings.Byte.
From Stdlib Require Import NArith.NArith Lists.List Bool.Bool micromega.Lia.
From Stdlib Require Import ZArith.ZArith Numbers.DecimalString.
From stdpp Require Import base option list.

Local Open Scope string_scope.
Local Open Scope list_scope.

(** ** JavaScript values and control flow *)

(** A computation either returns or throws an [Error] with a message. *)
Inductive Res (A : Type) : Type :=
| Ok (a : A)
| Throw (e : string).
Arguments Ok {A} a.
Arguments Throw {A} e.

(** The external libraries a call can go to. *)
Inductive Lib : Type := LibCKzg | LibWasmKzg | LibRpc.

(** One external call of a run.  [Verified] is a proof-verification call
    together with the boolean it returned. *)
Inductive Event : Type :=
| Called (l : Lib) (fn : string)
| Verified (l : Lib) (fn : string) (ok : bool).

(** A script run: the external calls made so far, and the outcome.  There
    is no [try]/[catch] in any script, so nothing ever consumes a
    [Throw]: it is the uncaught error that ends the process. *)
Definition M (A : Type) : Type := (list Event * Res A)%type.

Definition trace {A} (m : M A) : list Event := fst m.
Definition result {A} (m : M A) : Res A := snd m.

Definition returns {A} (r : Res A) : bool :=
  match r with
  | Ok _ => true
  | Throw _ => false
  end.

Definition throw {A} (e : string) : M A := ([], Throw e).

(** A library call that is neither a KZG nor a network call. *)
Definition lift {A} (r : Res A) : M A := ([], r).

(** A recorded library call. *)
Definition call {A} (l : Lib) (fn : string) (r : Res A) : M A :=
  ([Called l fn], r).

(** A recorded verification call: the event keeps the returned boolean. *)
Definition verify (l : Lib) (fn : string) (r : Res bool) : M bool :=
  match r with
  | Ok b => ([Verified l fn b], Ok b)
  | Throw e => ([Called l fn], Throw e)
  end.

Definition ret {A} (a : A) : M A := ([], Ok a).

(** Sequencing: the continuation runs only when the first part returned;
    a [Throw] ends the run with the calls made so far. *)
Definition bind {A B} (m : M A) (f : A → M B) : M B :=
  match m with
  | (t, Ok a) => let '(t', r) := f a in (t ++ t', r)
  | (t, Throw e) => (t, Throw e)
  end.

Notation "'let*' x := m 'in' k" := (bind m (fun x => k))
  (at level 10, x pattern, m at level 100, k at level 200).

Definition is_kzg_call (e : Event) : bool :=
  match e with
  | Called LibCKzg _ | Called LibWasmKzg _ => true
  | Verified LibCKzg _ _ | Verified LibWasmKzg _ _ => true
  | _ => false
  end.

Definition is_network_call (e : Event) : bool :=
  match e with
  | Called LibRpc _ | Verified LibRpc _ _ => true
  | _ => false
  end.

(** The two set-up entry points of the KZG libraries; every other KZG call
    computes or verifies something. *)
Definition is_kzg_setup (e : Event) : bool :=
  match e with
  | Called LibCKzg "loadTrustedSetup" => true
  | Called LibWasmKzg "loadKZG" => true
  | Called LibWasmKzg "loadTrustedSetup" => true
  | _ => false
  end.

Definition is_kzg_computation (e : Event) : bool :=
  is_kzg_call e && negb (is_kzg_setup e).

(** ** Strings, hex strings and byte arrays *)

Abbreviation Hex := string.
Abbreviation ByteArray := (list byte).

(** A value that may be [undefined] at run time (an array read out of
    range, a non-null assertion [!] that does not hold): [None]. *)
Definition TypeError : string := "TypeError".
Definition RangeError : string := "RangeError".

Definition is_upper (c : ascii) : bool :=
  let n := N_of_ascii c in ((65 <=? n) && (n <=? 90))%N.

Definition lower_ascii (c : ascii) : ascii :=
  if is_upper c then ascii_of_N (N_of_ascii c + 32) else c.

(** [String.prototype.toLowerCase] on the ASCII range, which is where hex
    strings live; other code units are kept. *)
Fixpoint toLowerCase (s : string) : string :=
  match s with
  | EmptyString => EmptyString
  | String c s' => String (lower_ascii c) (toLowerCase s')
  end.

(** [v.toLowerCase()] where [v] may be [undefined]. *)
Definition toLowerCase_of (v : option Hex) : Res string :=
  match v with
  | Some s => Ok (toLowerCase s)
  | None => Throw TypeError
  end.

(** [function equalHex(a, b) { return a.toLowerCase() === b.toLowerCase(); }]
    The left operand is evaluated first. *)
Definition equalHex (a b : option Hex) : Res bool :=
  match toLowerCase_of a with
  | Ok la =>
      match toLowerCase_of b with
      | Ok lb => Ok (String.eqb la lb)
      | Throw e => Throw e
      end
  | Throw e => Throw e
  end.

(** Two characters that are the same letter in possibly different case,
    stated on character codes and not through [toLowerCase]. *)
Definition same_letter (c d : ascii) : bool :=
  let m := N_of_ascii c in
  let n := N_of_ascii d in
  ((m =? n)
   || (is_upper c && (n =? m + 32))
   || (is_upper d && (m =? n + 32)))%N.

Fixpoint differ_only_in_case (s t : string) : bool :=
  match s, t with
  | EmptyString, EmptyString => true
  | String c s', String d t' => same_letter c d && differ_only_in_case s' t'
  | _, _ => false
  end.

(** [arr[0] = v] on a [Uint8Array]: a store out of range is ignored, and
    storing [undefined] stores 0. *)
Definition uint8_store (arr : ByteArray) (i : nat) (v : option byte) : ByteArray :=
  <[i := default x00 v]> arr.

(** [new Uint8Array(n)]: [n] zero bytes. *)
Definition new_Uint8Array (n : nat) : ByteArray := replicate n x00.

(** [target.set(source, offset)]: copies [source] into [target] at
    [offset]; a [RangeError] when it does not fit. *)
Definition uint8_set (target source : ByteArray) (offset : nat) : Res ByteArray :=
  if (length target <? offset + length source)%nat
  then Throw RangeError
  else Ok (take offset target ++ source ++ drop (offset + length source) target).

(** [xs.slice(from, to)] for [0 <= from <= to]. *)
Definition slice {A} (xs : list A) (from to : nat) : list A :=
  take (to - from) (drop from xs).

(** [xs![0]]: reading index 0 of a possibly missing array.  The read of a
    missing array throws, the one of an empty array gives [undefined]. *)
Definition first_of {A} (xs : option (list A)) : Res (option A) :=
  match xs with
  | Some l => Ok (l !! 0)
  | None => Throw TypeError
  end.

(** A library function applied to a value that may be [undefined]. *)
Definition defined {A} (v : option A) : Res A :=
  match v with
  | Some a => Ok a
  | None => Throw TypeError
  end.

(** ** The external libraries *)

(** The two functions viem asks of a [kzg] implementation. *)
Record Kzg : Type := {
  kzg_blobToKzgCommitment : ByteArray → Res ByteArray;
  kzg_computeBlobKzgProof : ByteArray → ByteArray → Res ByteArray
}.

Record Sidecar : Type := {
  sc_blob : Hex;
  sc_commitment : Hex;
  sc_proof : Hex
}.

(** The prepared request, reduced to the field the scripts read. *)
Record TransactionRequest : Type := {
  blobVersionedHashes : option (list Hex);
  request_rest : string
}.

(** The object returned by [privateKeyToAccount]. *)
Record Account : Type := {
  address : Hex;
  signTransaction : TransactionRequest → Res Hex
}.

(** The argument of [prepareTransactionRequest] and [sendTransaction]. *)
Record TransactionArgs : Type := {
  ta_account : Account;
  ta_blobs : list Hex;
  ta_kzg : Kzg;
  ta_maxFeePerBlobGas : N;
  ta_to : Hex;
  ta_type : string;
  ta_sidecars : option (list Sidecar)
}.

Record CallArgs : Type := {
  ca_to : Hex;
  ca_data : Hex
}.

Module viem.
Record lib : Type := {
  bytesToHex : ByteArray → Hex;
  hexToBytes : Hex → Res ByteArray;
  stringToHex : string → Hex;
  toBlobs : Hex → Res (list Hex);
  sha256 : Hex + ByteArray → Res Hex;
  concat : list Hex → Hex;
  parseGwei : string → N;
  parseTransaction : Hex → Res unit;
  privateKeyToAccount : Hex → Res Account;
  prepareTransactionRequest : TransactionArgs → Res TransactionRequest;
  sendRawTransaction : Hex → Res Hex;
  sendTransaction : TransactionArgs → Res Hex;
  (* the transaction found, reduced to the field the scripts read *)
  getTransaction : Hex → Res (option (option (list Hex)));
  call : CallArgs → Res string
}.
End viem.

Module cKzg.
Record lib : Type := {
  loadTrustedSetup : N → string → Res unit;
  blobToKzgCommitment : ByteArray → Res ByteArray;
  computeBlobKzgProof : ByteArray → ByteArray → Res ByteArray;
  verifyBlobKzgProof : ByteArray → ByteArray → ByteArray → Res bool;
  (* [proof, y] *)
  computeKzgProof : ByteArray → ByteArray → Res (ByteArray * ByteArray);
  (* commitment, z, y, proof *)
  verifyKzgProof : ByteArray → ByteArray → ByteArray → ByteArray → Res bool;
  CELLS_PER_EXT_BLOB : nat;
  (* [cells, proofs] *)
  computeCellsAndKzgProofs : ByteArray → Res (list ByteArray * list ByteArray);
  verifyCellKzgProofBatch :
    list ByteArray → list nat → list ByteArray → list ByteArray → Res bool;
  recoverCellsAndKzgProofs :
    list nat → list ByteArray → Res (list ByteArray * list ByteArray)
}.

(** [kzg: cKzg] in a transaction request. *)
Definition as_kzg (K : lib) : Kzg :=
  {| kzg_blobToKzgCommitment := blobToKzgCommitment K;
     kzg_computeBlobKzgProof := computeBlobKzgProof K |}.
End cKzg.

Module wasmKzg.
Record lib : Type := {
  loadTrustedSetup : N → Res unit;
  blobToKZGCommitment : Hex → Res Hex;
  computeBlobKZGProof : Hex → Hex → Res Hex;
  verifyBlobKZGProof : Hex → Hex → Hex → Res bool;
  (* { cells, proofs }, reduced to [proofs] *)
  computeCellsAndKZGProofs : Hex → Res (list Hex)
}.
End wasmKzg.

Module ethers.
Record FeeData : Type := {
  maxPriorityFeePerGas : option N;
  maxFeePerGas : option N
}.

Record AccessListEntry : Type := {
  al_address : Hex;
  al_storageKeys : list Hex
}.

Record BlobLike : Type := {
  data : Hex;
  commitment : Hex;
  proof : Hex
}.

(** The fields of [Transaction] the script assigns.
    [blobWrapperVersion] is [null] in a fresh [Transaction]. *)
Record Transaction : Type := {
  tx_to : Hex;
  tx_value : N;
  tx_gasLimit : N;
  tx_maxPriorityFeePerGas : option N;
  tx_maxFeePerGas : option N;
  tx_data : Hex;
  tx_nonce : N;
  tx_type : N;
  tx_chainId : N;
  tx_accessList : list AccessListEntry;
  tx_maxFeePerBlobGas : N;
  tx_blobWrapperVersion : option N;
  tx_blobs : list BlobLike
}.

Record lib : Type := {
  toUtf8Bytes : string → ByteArray;
  hexlify : ByteArray → Hex;
  concat : list Hex → Res Hex;
  parseEther : string → N;
  (* [new Wallet(privateKey, provider)], reduced to its address *)
  Wallet : string → Res Hex;
  getFeeData : Res FeeData;
  getTransactionCount : Hex → Res N;
  wallet_signTransaction : Hex → Transaction → Res Hex;
  send : string → list Hex → Res string
}.
End ethers.

(** Everything a run depends on: the process environment and the
    libraries.  [rootsOfUnity] is the bundled JSON table. *)
Record Env : Type := {
  PRIVATE_KEY : option string;
  argv2 : option string;
  resolve : string → string;
  rootsOfUnity : list string;
  V : viem.lib;
  K : cKzg.lib;
  loadKZG : Res wasmKzg.lib;
  Eth : ethers.lib
}.

(** The request object the viem scripts pass to
    [prepareTransactionRequest] and [sendTransaction]; they differ in the
    [kzg] implementation and in whether [sidecars] are given. *)
Definition blob_transaction (Vm : viem.lib) (account : Account)
    (blobs : list Hex) (kzg : Kzg) (sidecars : option (list Sidecar))
  : TransactionArgs :=
  {| ta_account := account;
     ta_blobs := blobs;
     ta_kzg := kzg;
     ta_maxFeePerBlobGas := viem.parseGwei Vm "30";
     ta_to := "0x0000000000000000000000000000000000000000";
     ta_type := "eip4844";
     ta_sidecars := sidecars |}.

(** ** The experiment scripts *)

(** The [let] variables experiment 1 assigns and the later ones read. *)
Record Vars : Type := {
  versionedHash : option Hex;
  commitment : Hex;
  proof : Hex
}.

Definition POINT_EVALUATION_PRECOMPILE_ADDRESS : Hex :=
  "0x000000000000000000000000000000000000000A".

Section Experiments.
Context (E : Env).

Abbreviation bytesToHex := (viem.bytesToHex (V E)).
Abbreviation hexToBytes := (viem.hexToBytes (V E)).
Abbreviation sha256 := (viem.sha256 (V E)).

(** [if (!process.env.PRIVATE_KEY) throw new Error('PRIVATE_KEY is not set')]:
    an unset variable and the empty string are both falsy. *)
Definition require_PRIVATE_KEY : M Hex :=
  match PRIVATE_KEY E with
  | None => throw "PRIVATE_KEY is not set"
  | Some "" => throw "PRIVATE_KEY is not set"
  | Some k => ret k
  end.

(** [const VERSIONED_HASH_VERSION_KZG = hexToBytes('0x01')]. *)
Definition VERSIONED_HASH_VERSION_KZG : Res ByteArray := hexToBytes "0x01".

Definition mainnetTrustedSetupPath : string :=
  resolve E "./node_modules/viem/trusted-setups/mainnet.json".

(** The head of [experimentWithBlob]: clients, both KZG back ends, the
    blob list and its guard.  Creating the clients calls nothing. *)
Definition setup (privateKey : Hex) (data : string)
  : M (Account * wasmKzg.lib * list Hex * Hex) :=
  let* account := lift (viem.privateKeyToAccount (V E) privateKey) in
  let* _ := call LibCKzg "loadTrustedSetup"
        (cKzg.loadTrustedSetup (K E) 0 mainnetTrustedSetupPath) in
  let* wasm := call LibWasmKzg "loadKZG" (loadKZG E) in
  let* _ := call LibWasmKzg "loadTrustedSetup" (wasmKzg.loadTrustedSetup wasm 0) in
  let* blobs := lift (viem.toBlobs (V E) (viem.stringToHex (V E) data)) in
  match blobs with
  | [blob] => ret (account, wasm, blobs, blob)
  | _ => throw "Only one blob is assumed in this example"
  end.

(** [hexToBytes(sha256(c))] with byte 0 overwritten by
    [VERSIONED_HASH_VERSION_KZG[0]], as hex. *)
Definition manual_versioned_hash (tag : ByteArray) (c : Hex + ByteArray) : M Hex :=
  let* h := lift (sha256 c) in
  let* _versionedHash := lift (hexToBytes h) in
  ret (bytesToHex (uint8_store _versionedHash 0 (tag !! 0))).

(** experiment 1: send blob transaction using c kzg *)
Definition experiment1 (sendTransaction : bool) (account : Account)
    (blobs : list Hex) (blob : Hex) : M Vars :=
  let* b := lift (hexToBytes blob) in
  let* c := call LibCKzg "blobToKzgCommitment" (cKzg.blobToKzgCommitment (K E) b) in
  let commitment := bytesToHex c in
  let* b := lift (hexToBytes blob) in
  let* cb := lift (hexToBytes commitment) in
  let* p := call LibCKzg "computeBlobKzgProof" (cKzg.computeBlobKzgProof (K E) b cb) in
  let proof := bytesToHex p in
  let* request := call LibRpc "prepareTransactionRequest"
    (viem.prepareTransactionRequest (V E)
       (blob_transaction (V E) account blobs (cKzg.as_kzg (K E))
          (Some [ {| sc_blob := blob; sc_commitment := commitment;
                     sc_proof := proof |} ]))) in
  let* versionedHash := lift (first_of (blobVersionedHashes request)) in
  let* serializedTx := lift (signTransaction account request) in
  let* _ := lift (viem.parseTransaction (V E) serializedTx) in
  let vars := {| versionedHash := versionedHash; commitment := commitment;
                 proof := proof |} in
  if sendTransaction then
    let* txHash := call LibRpc "sendRawTransaction"
               (viem.sendRawTransaction (V E) serializedTx) in
    (* await timeout(5000) *)
    let* transaction := call LibRpc "getTransaction" (viem.getTransaction (V E) txHash) in
    let* onchain := lift (match transaction with
                    | Some hashes => first_of hashes
                    | None => Ok None
                    end) in
    let* same := lift (equalHex versionedHash onchain) in
    if same then ret vars else throw "Versioned hash mismatch"
  else ret vars.

(** experiment 2: check how to calculate blob versioned hash *)
Definition experiment2 (tag : ByteArray) (blob : Hex) (vars : Vars) : M unit :=
  let* b := lift (hexToBytes blob) in
  let* commitment := call LibCKzg "blobToKzgCommitment"
                 (cKzg.blobToKzgCommitment (K E) b) in
  let* mine := manual_versioned_hash tag (inr commitment) in
  let* same := lift (equalHex (Some mine) (versionedHash vars)) in
  if same then ret tt else throw "versioned hash mismatch".

(** experiment 3, first block: verification without proof *)
Definition experiment3_without_proof (tag : ByteArray) (blob : Hex)
    (vars : Vars) : M unit :=
  let* b := lift (hexToBytes blob) in
  let* commitment := call LibCKzg "blobToKzgCommitment"
                 (cKzg.blobToKzgCommitment (K E) b) in
  let* mine := manual_versioned_hash tag (inr commitment) in
  let* same := lift (equalHex (Some mine) (versionedHash vars)) in
  if same then ret tt else throw "Versioned hash mismatch".

(** experiment 3, second block: verification with proof *)
Definition experiment3_with_proof (tag : ByteArray) (blob : Hex)
    (vars : Vars) : M unit :=
  let* mine := manual_versioned_hash tag (inl (commitment vars)) in
  let* b := lift (hexToBytes blob) in
  let* cb := lift (hexToBytes (commitment vars)) in
  let* pb := lift (hexToBytes (proof vars)) in
  let* isValid := verify LibCKzg "verifyBlobKzgProof"
              (cKzg.verifyBlobKzgProof (K E) b cb pb) in
  let* same := lift (equalHex (Some mine) (versionedHash vars)) in
  if same then
    if isValid then ret tt else throw "Proof verification failed"
  else throw "Versioned hash mismatch".

Definition experiment3 (tag : ByteArray) (blob : Hex) (vars : Vars) : M unit :=
  let* _ := experiment3_without_proof tag blob vars in
  experiment3_with_proof tag blob vars.

(** experiments 4 and 5 differ between the two scripts in how the
    evaluation point [zBytes] is obtained, and in nothing else. *)
Definition experiment4 (zBytes : ByteArray) (blob : Hex) (vars : Vars) : M unit :=
  let* b := lift (hexToBytes blob) in
  let* PointProof := call LibCKzg "computeKzgProof"
                 (cKzg.computeKzgProof (K E) b zBytes) in
  let* cb := lift (hexToBytes (commitment vars)) in
  let* isValid := verify LibCKzg "verifyKzgProof"
              (cKzg.verifyKzgProof (K E) cb zBytes PointProof.2 PointProof.1) in
  (* console.log(`result: ${isValid}`) *)
  ret tt.

Definition experiment5 (zBytes : ByteArray) (blob : Hex) (vars : Vars) : M unit :=
  let* b := lift (hexToBytes blob) in
  let* PointProof := call LibCKzg "computeKzgProof"
                 (cKzg.computeKzgProof (K E) b zBytes) in
  let* vh := lift (defined (versionedHash vars)) in
  let* _ := call LibRpc "call"
        (viem.call (V E)
           {| ca_to := POINT_EVALUATION_PRECOMPILE_ADDRESS;
              ca_data := viem.concat (V E)
                [ vh; bytesToHex zBytes; bytesToHex PointProof.2;
                  commitment vars; bytesToHex PointProof.1 ] |}) in
  ret tt.

(** experiment 6, first block: c kzg recomputes commitment and proof *)
Definition experiment6_ckzg (blob : Hex) (vars : Vars) : M unit :=
  let* b := lift (hexToBytes blob) in
  let* _commitment := call LibCKzg "blobToKzgCommitment"
                  (cKzg.blobToKzgCommitment (K E) b) in
  let* b := lift (hexToBytes blob) in
  let* _proof := call LibCKzg "computeBlobKzgProof"
             (cKzg.computeBlobKzgProof (K E) b _commitment) in
  let* same := lift (equalHex (Some (bytesToHex _commitment)) (Some (commitment vars))) in
  if same then
    let* same := lift (equalHex (Some (bytesToHex _proof)) (Some (proof vars))) in
    if same then ret tt else throw "Proof mismatch"
  else throw "Commitment mismatch".

(** experiment 6, second block: wasm kzg computes commitment and proof *)
Definition experiment6_wasm (wasm : wasmKzg.lib) (blob : Hex) (vars : Vars)
  : M unit :=
  let* _commitment := call LibWasmKzg "blobToKZGCommitment"
                  (wasmKzg.blobToKZGCommitment wasm blob) in
  let* _proof := call LibWasmKzg "computeBlobKZGProof"
             (wasmKzg.computeBlobKZGProof wasm blob _commitment) in
  let* same := lift (equalHex (Some _commitment) (Some (commitment vars))) in
  if same then
    let* same := lift (equalHex (Some _proof) (Some (proof vars))) in
    if same then ret tt else throw "Proof mismatch"
  else throw "Commitment mismatch".

Definition experiment6 (wasm : wasmKzg.lib) (blob : Hex) (vars : Vars) : M unit :=
  let* _ := experiment6_ckzg blob vars in
  experiment6_wasm wasm blob vars.
End Experiments.

(** Sequencing of library results outside a run (inside callbacks). *)
Definition and_then {A B} (r : Res A) (f : A → Res B) : Res B :=
  match r with
  | Ok a => f a
  | Throw e => Throw e
  end.

(** [Array.from({ length: n }, (_, i) => f(i))]: the callback runs for
    [i = 0 .. n - 1] in order, and the first throw ends the construction. *)
Fixpoint Array_from_at {A} (f : nat → Res A) (i n : nat) : Res (list A) :=
  match n with
  | 0 => Ok []
  | S n' => and_then (f i) (λ a,
            and_then (Array_from_at f (S i) n') (λ rest, Ok (a :: rest)))
  end.

Definition Array_from {A} (n : nat) (f : nat → Res A) : Res (list A) :=
  Array_from_at f 0 n.

Module Index.
Section Script.
Context (E : Env).

(** [zBytes] of experiments 4 and 5: the first field element of the blob. *)
Definition zBytes (blob : Hex) : Res ByteArray :=
  and_then (viem.hexToBytes (V E) blob) (λ b, Ok (slice b 0 32)).

Definition experimentWithBlob (privateKey : Hex) (tag : ByteArray)
    (sendTransaction : bool) : M unit :=
  let* (account, wasm, blobs, blob) := setup E privateKey "hello world" in
  let* vars := experiment1 E sendTransaction account blobs blob in
  let* _ := experiment2 E tag blob vars in
  let* _ := experiment3 E tag blob vars in
  let* z := lift (zBytes blob) in
  let* _ := experiment4 E z blob vars in
  let* z := lift (zBytes blob) in
  let* _ := experiment5 E z blob vars in
  experiment6 E wasm blob vars.

(** The module body: the guard, the constants, [experimentWithBlob(true)]. *)
Definition script : M unit :=
  let* privateKey := require_PRIVATE_KEY E in
  let* tag := lift (VERSIONED_HASH_VERSION_KZG E) in
  experimentWithBlob privateKey tag true.
End Script.
End Index.

Module Fusaka.
Definition rawBlob : string :=
  "A purely peer-to-peer version of electronic cash would allow online payments to be sent directly from one party to another without going through a financial institution. Digital signatures provide part of the solution, but the main benefits are lost if a trusted third party is still required to prevent double-spending. We propose a solution to the double-spending problem using a peer-to-peer network. The network timestamps transactions by hashing them into an ongoing chain of hash-based proof-of-work, forming a record that cannot be changed without redoing the proof-of-work. The longest chain not only serves as proof of the sequence of events witnessed, but proof that it came from the largest pool of CPU power. As long as a majority of CPU power is controlled by nodes that are not cooperating to attack the network, they'll generate the longest chain and outpace attackers. The network itself requires minimal structure. Messages are broadcast on a best effort basis, and nodes can leave and rejoin the network at will, accepting the longest proof-of-work chain as proof of what happened while they were gone.".

Section Script.
Context (E : Env).

Abbreviation bytesToHex := (viem.bytesToHex (V E)).
Abbreviation hexToBytes := (viem.hexToBytes (V E)).

(** [hexToBytes(`0x${rootsOfUnity[index]}`).reverse().slice(0, 32)] with
    [index = 3]; a missing entry prints as [undefined] in the template. *)
Definition zBytes : Res ByteArray :=
  let index := 3 in
  and_then (hexToBytes (String.append "0x"
                          (default "undefined" (rootsOfUnity E !! index))))
           (λ b, Ok (slice (rev b) 0 32)).

(** experiment 7: verify cell kzg proof batch *)
Definition experiment7 (blob : Hex) (vars : Vars) : M unit :=
  let* b := lift (hexToBytes blob) in
  let* (_cells, _proofs) := call LibCKzg "computeCellsAndKzgProofs"
                               (cKzg.computeCellsAndKzgProofs (K E) b) in
  let* indices := lift (Array_from (cKzg.CELLS_PER_EXT_BLOB (K E)) (λ i, Ok i)) in
  let* dupCommitments :=
    lift (Array_from (cKzg.CELLS_PER_EXT_BLOB (K E))
            (λ _, hexToBytes (commitment vars))) in
  let* isValid := verify LibCKzg "verifyCellKzgProofBatch"
                    (cKzg.verifyCellKzgProofBatch (K E)
                       dupCommitments indices _cells _proofs) in
  if isValid then ret tt else throw "Proof verification failed".

(** [bytesToHex(cells[i])]: the library reads [.length] of its argument,
    which throws on [undefined]. *)
Definition bytesToHex_at (cells : list ByteArray) (i : nat) : Res Hex :=
  and_then (defined (cells !! i)) (λ c, Ok (bytesToHex c)).

(** [for (let i = ...; i < CELLS_PER_EXT_BLOB; i++)] of experiment 8,
    with [n] iterations left. *)
Fixpoint compare_cells (recoveredCells _cells : list ByteArray) (i n : nat)
  : M unit :=
  match n with
  | 0 => ret tt
  | S n' =>
      let* r := lift (bytesToHex_at recoveredCells i) in
      let* c := lift (bytesToHex_at _cells i) in
      let* same := lift (equalHex (Some r) (Some c)) in
      if same then compare_cells recoveredCells _cells (S i) n'
      else throw "Cell mismatch"
  end.

(** experiment 8: recover cells *)
Definition experiment8 (blob : Hex) : M unit :=
  let* _ := lift (hexToBytes blob) in
  let* b := lift (hexToBytes blob) in
  let* (_cells, _proofs) := call LibCKzg "computeCellsAndKzgProofs"
                               (cKzg.computeCellsAndKzgProofs (K E) b) in
  let* indices := lift (Array_from (cKzg.CELLS_PER_EXT_BLOB (K E)) (λ i, Ok i)) in
  let* (recoveredCells, _recoveredProofs) :=
    call LibCKzg "recoverCellsAndKzgProofs"
      (cKzg.recoverCellsAndKzgProofs (K E)
         (slice indices 64 128) (slice _cells 64 128)) in
  compare_cells recoveredCells _cells 0 (cKzg.CELLS_PER_EXT_BLOB (K E)).

Definition experimentWithBlob (privateKey : Hex) (tag : ByteArray)
    (sendTransaction : bool) : M unit :=
  let* (account, wasm, blobs, blob) := setup E privateKey rawBlob in
  let* vars := experiment1 E sendTransaction account blobs blob in
  let* _ := experiment2 E tag blob vars in
  let* _ := experiment3 E tag blob vars in
  let* z := lift zBytes in
  let* _ := experiment4 E z blob vars in
  let* z := lift zBytes in
  let* _ := experiment5 E z blob vars in
  let* _ := experiment6 E wasm blob vars in
  let* _ := experiment7 blob vars in
  experiment8 blob.

Definition script : M unit :=
  let* privateKey := require_PRIVATE_KEY E in
  let* tag := lift (VERSIONED_HASH_VERSION_KZG E) in
  experimentWithBlob privateKey tag true.
End Script.
End Fusaka.

(** ** The ethers-based script *)

Module EthersTx.
Section Script.
Context (E : Env).

(** [const privateKey = process.env.PRIVATE_KEY || '']. *)
Definition privateKey : string :=
  match PRIVATE_KEY E with
  | None => ""
  | Some "" => ""
  | Some k => k
  end.

(** [const blob = new Uint8Array(32 * 4_096); blob.set(data, 0)]. *)
Definition make_blob (data : ByteArray) : Res ByteArray :=
  uint8_set (new_Uint8Array (32 * 4096)) data 0.

(** [eip === s] for [eip = process.argv[2]], which may be missing. *)
Definition eip_is (s : string) : bool :=
  match argv2 E with
  | Some eip => String.eqb eip s
  | None => false
  end.

(** The part of [main] before signing: the transaction it assembles.
    Creating the provider calls nothing, and the assignments to the
    fields of [tx] are plain stores; the record is written once, after
    the two awaited values are there. *)
Definition build_transaction : M (Hex * ethers.Transaction) :=
  let* kzg := call LibWasmKzg "loadKZG" (loadKZG E) in
  let* wallet := lift (ethers.Wallet (Eth E) privateKey) in
  let* feeData := call LibRpc "getFeeData" (ethers.getFeeData (Eth E)) in
  let* nonce := call LibRpc "getTransactionCount"
                  (ethers.getTransactionCount (Eth E) wallet) in
  let blobWrapperVersion := if eip_is "7594" then Some 1%N else None in
  let data := ethers.toUtf8Bytes (Eth E) "Long live the BLOBs!" in
  let* blob := lift (make_blob data) in
  let blobHex := ethers.hexlify (Eth E) blob in
  let* commitment := call LibWasmKzg "blobToKZGCommitment"
                       (wasmKzg.blobToKZGCommitment kzg blobHex) in
  let* proof :=
    if eip_is "4844" then
      call LibWasmKzg "computeBlobKZGProof"
        (wasmKzg.computeBlobKZGProof kzg blobHex commitment)
    else
      let* proofs := call LibWasmKzg "computeCellsAndKZGProofs"
                       (wasmKzg.computeCellsAndKZGProofs kzg blobHex) in
      lift (ethers.concat (Eth E) proofs) in
  ret (wallet,
       {| ethers.tx_to := "0x9F3f11d72d96910df008Cfe3aBA40F361D2EED03";
         ethers.tx_value := ethers.parseEther (Eth E) "0";
         ethers.tx_gasLimit := 50000;
         ethers.tx_maxPriorityFeePerGas := ethers.maxPriorityFeePerGas feeData;
         ethers.tx_maxFeePerGas := ethers.maxFeePerGas feeData;
         ethers.tx_data :=
           "0x5468697320697320612074657374207472616e73616374696f6e21";
         ethers.tx_nonce := nonce;
         ethers.tx_type := 3;
         ethers.tx_chainId := 11155111;
         ethers.tx_accessList :=
           [ {| ethers.al_address := "0x6B175474E89094C44Da98b954EedeAC495271d0F";
                ethers.al_storageKeys :=
                  [ "0x0000000000000000000000000000000000000000000000000000000000000002";
                    "0x0000000000000000000000000000000000000000000000000000000000000003" ] |} ];
         ethers.tx_maxFeePerBlobGas := 400000000000;
         ethers.tx_blobWrapperVersion := blobWrapperVersion;
         ethers.tx_blobs :=
           [ {| ethers.data := blobHex; ethers.commitment := commitment;
                ethers.proof := proof |} ] |}).

Definition main : M unit :=
  let* (wallet, tx) := build_transaction in
  let* rawTx := lift (ethers.wallet_signTransaction (Eth E) wallet tx) in
  let* res := call LibRpc "send"
                (ethers.send (Eth E) "eth_sendRawTransaction" [rawTx]) in
  ret tt.

Definition script : M unit := main.
End Script.
End EthersTx.

(** ** The viem walkthrough scripts *)

(** The adapters that let viem use [kzg-wasm]: bytes in, hex through the
    library, bytes out. *)
Definition adaptedKzg (Vm : viem.lib) (kzg : wasmKzg.lib) : Kzg :=
  {| kzg_blobToKzgCommitment := λ blob,
       let hexInput := viem.bytesToHex Vm blob in
       and_then (wasmKzg.blobToKZGCommitment kzg hexInput) (λ commitmentHex,
       viem.hexToBytes Vm commitmentHex);
     kzg_computeBlobKzgProof := λ blob commitment,
       let hexBlob := viem.bytesToHex Vm blob in
       let hexCommitment := viem.bytesToHex Vm commitment in
       and_then (wasmKzg.computeBlobKZGProof kzg hexBlob hexCommitment) (λ proofHex,
       viem.hexToBytes Vm proofHex) |}.

Module ViemKzgProof.
Section Script.
Context (E : Env).

(** [blobs[0]] is handed to the library as it is; a missing blob ends
    the run there. *)
Definition KZGProofVerification : M unit :=
  let* kzg := call LibWasmKzg "loadKZG" (loadKZG E) in
  let* blobs := lift (viem.toBlobs (V E) (viem.stringToHex (V E) "hello world")) in
  let* blobData := lift (defined (blobs !! 0)) in
  let* kzgCommitment := call LibWasmKzg "blobToKZGCommitment"
                          (wasmKzg.blobToKZGCommitment kzg blobData) in
  let* kzgProof := call LibWasmKzg "computeBlobKZGProof"
                     (wasmKzg.computeBlobKZGProof kzg blobData kzgCommitment) in
  let* isValid := verify LibWasmKzg "verifyBlobKZGProof"
                    (wasmKzg.verifyBlobKZGProof kzg blobData kzgCommitment kzgProof) in
  (* console.log(`Blob existence validated: ${isValid}`) *)
  ret tt.

Definition script : M unit :=
  let* _ := require_PRIVATE_KEY E in
  KZGProofVerification.
End Script.
End ViemKzgProof.

Module ViemSend.
Section Script.
Context (E : Env).

Definition signTransaction (PRIVATE_KEY : Hex) : M unit :=
  let* account := lift (viem.privateKeyToAccount (V E) PRIVATE_KEY) in
  let* kzg := call LibWasmKzg "loadKZG" (loadKZG E) in
  let* blobs := lift (viem.toBlobs (V E) (viem.stringToHex (V E) "hello world")) in
  let* txHash := call LibRpc "sendTransaction"
    (viem.sendTransaction (V E)
       (blob_transaction (V E) account blobs (adaptedKzg (V E) kzg) None)) in
  ret tt.

Definition script : M unit :=
  let* PRIVATE_KEY := require_PRIVATE_KEY E in
  signTransaction PRIVATE_KEY.
End Script.
End ViemSend.

(** The five scripts of the repository. *)
Inductive Script : Type :=
| index_ts | fusaka_ts | ethers_ts | viem_kzg_proof_ts | viem_send_ts.

Definition run (s : Script) (E : Env) : M unit :=
  match s with
  | index_ts => Index.script E
  | fusaka_ts => Fusaka.script E
  | ethers_ts => EthersTx.script E
  | viem_kzg_proof_ts => ViemKzgProof.script E
  | viem_send_ts => ViemSend.script E
  end.

(** ** A concrete instance of the libraries

    Used to run the scripts on examples.  The hex codec follows viem's
    ([bytesToHex] prints two lower-case digits per byte after [0x];
    [hexToBytes] drops the first two characters, pads an odd number of
    digits with a leading 0 and rejects anything that is not a hex
    digit).  Hash, KZG and RPC are stand-ins small enough to evaluate;
    nothing is claimed about them beyond what the examples compute. *)
Module Ref.
Definition hex_digit (n : N) : ascii :=
  if (n <? 10)%N then ascii_of_N (48 + n) else ascii_of_N (87 + n).

Definition hex_of_byte (b : byte) (rest : string) : string :=
  let n := Byte.to_N b in
  String (hex_digit (n / 16)) (String (hex_digit (n mod 16)) rest).

Definition hex_body (bs : ByteArray) : string :=
  foldr hex_of_byte EmptyString bs.

Definition bytesToHex (bs : ByteArray) : Hex := String.append "0x" (hex_body bs).

Definition charCodeToBase16 (c : ascii) : option N :=
  let n := N_of_ascii c in
  if ((48 <=? n) && (n <=? 57))%N then Some (n - 48)%N
  else if ((65 <=? n) && (n <=? 70))%N then Some (n - 55)%N
  else if ((97 <=? n) && (n <=? 102))%N then Some (n - 87)%N
  else None.

Fixpoint bytes_of_body (s : string) : Res ByteArray :=
  match s with
  | EmptyString => Ok []
  | String _ EmptyString => Throw "Invalid byte sequence"
  | String a (String b rest) =>
      match charCodeToBase16 a, charCodeToBase16 b with
      | Some x, Some y =>
          and_then (bytes_of_body rest) (λ bs,
            Ok (default x00 (Byte.of_N (x * 16 + y)) :: bs))
      | _, _ => Throw "Invalid byte sequence"
      end
  end.

Definition string_drop2 (s : string) : string :=
  match s with
  | String _ (String _ rest) => rest
  | _ => EmptyString
  end.

Definition hexToBytes (h : Hex) : Res ByteArray :=
  let hexString := string_drop2 h in
  let hexString := if Nat.odd (String.length hexString)
                   then String "0" hexString else hexString in
  bytes_of_body hexString.

Fixpoint bytes_eqb (a b : ByteArray) : bool :=
  match a, b with
  | [], [] => true
  | x :: a', y :: b' => Byte.eqb x y && bytes_eqb a' b'
  | _, _ => false
  end.

(** A stand-in hash: the input reversed, behind a marker byte. *)
Definition hash (b : ByteArray) : ByteArray := xa5 :: rev b.

Definition sha256 (v : Hex + ByteArray) : Res Hex :=
  match v with
  | inl h => and_then (hexToBytes h) (λ b, Ok (bytesToHex (hash b)))
  | inr b => Ok (bytesToHex (hash b))
  end.

(** Stand-in KZG: the commitment is the first four bytes of the blob, the
    blob proof the reversed commitment, the evaluation at [z] the first
    byte of [z]; the extended blob repeats 64 one-byte cells twice. *)
Definition commit (blob : ByteArray) : ByteArray := take 4 blob.
Definition blob_proof (blob c : ByteArray) : ByteArray := rev c.
Definition cells_of (blob : ByteArray) : list ByteArray :=
  let half := map (λ i, [default x00 (blob !! i)]) (seq 0 64) in
  half ++ half.

Definition native_with
    (verifyBlobKzgProof : ByteArray → ByteArray → ByteArray → Res bool)
    (verifyKzgProof : ByteArray → ByteArray → ByteArray → ByteArray → Res bool)
  : cKzg.lib :=
  {| cKzg.loadTrustedSetup := λ _ _, Ok tt;
     cKzg.blobToKzgCommitment := λ b, Ok (commit b);
     cKzg.computeBlobKzgProof := λ b c, Ok (blob_proof b c);
     cKzg.verifyBlobKzgProof := verifyBlobKzgProof;
     cKzg.computeKzgProof := λ b z, Ok (rev (commit b), take 1 z);
     cKzg.verifyKzgProof := verifyKzgProof;
     cKzg.CELLS_PER_EXT_BLOB := 128;
     cKzg.computeCellsAndKzgProofs := λ b,
       Ok (cells_of b, map (λ c, rev (commit b) ++ c) (cells_of b));
     cKzg.verifyCellKzgProofBatch := λ cs idx cells proofs,
       Ok (Nat.eqb (length cells) (length idx));
     cKzg.recoverCellsAndKzgProofs := λ idx cells,
       Ok (cells ++ cells, cells ++ cells) |}.

Definition verify_blob (b c p : ByteArray) : Res bool :=
  Ok (bytes_eqb c (commit b) && bytes_eqb p (blob_proof b c)).

Definition verify_point (c z y p : ByteArray) : Res bool :=
  Ok (bytes_eqb p (rev c) && bytes_eqb y (take 1 z)).

Definition native : cKzg.lib := native_with verify_blob verify_point.

(** The same library with a point verification that fails. *)
Definition native_rejecting : cKzg.lib :=
  native_with verify_blob (λ _ _ _ _, Ok false).

(** The same library with a blob verification that fails. *)
Definition native_rejecting_blob : cKzg.lib :=
  native_with (λ _ _ _, Ok false) verify_point.

Definition through_bytes (f : ByteArray → ByteArray) (h : Hex) : Res Hex :=
  and_then (hexToBytes h) (λ b, Ok (bytesToHex (f b))).

Definition wasm : wasmKzg.lib :=
  {| wasmKzg.loadTrustedSetup := λ _, Ok tt;
     wasmKzg.blobToKZGCommitment := through_bytes commit;
     wasmKzg.computeBlobKZGProof := λ b c,
       and_then (hexToBytes b) (λ bb, through_bytes (blob_proof bb) c);
     wasmKzg.verifyBlobKZGProof := λ b c p,
       and_then (hexToBytes b) (λ bb,
       and_then (hexToBytes c) (λ cb,
       and_then (hexToBytes p) (λ pb, verify_blob bb cb pb)));
     wasmKzg.computeCellsAndKZGProofs := λ b,
       and_then (hexToBytes b) (λ bb,
         Ok (map (λ c, bytesToHex (rev (commit bb) ++ c)) (cells_of bb))) |}.

(** The versioned hash a node derives from a commitment. *)
Definition versioned (c : Hex) : Res Hex :=
  and_then (hexToBytes c) (λ cb, Ok (bytesToHex (<[0 := x01]> (hash cb)))).

Fixpoint all_ok {A} (rs : list (Res A)) : Res (list A) :=
  match rs with
  | [] => Ok []
  | r :: rs' => and_then r (λ a, and_then (all_ok rs') (λ l, Ok (a :: l)))
  end.

Definition prepare (a : TransactionArgs) : Res TransactionRequest :=
  let commitments :=
    match ta_sidecars a with
    | Some scs => map (λ sc, Ok (sc_commitment sc)) scs
    | None => map (λ blob, and_then (hexToBytes blob) (λ b,
                     and_then (kzg_blobToKzgCommitment (ta_kzg a) b) (λ c,
                       Ok (bytesToHex c)))) (ta_blobs a)
    end in
  and_then (all_ok commitments) (λ cs,
  and_then (all_ok (map versioned cs)) (λ hashes,
    Ok {| blobVersionedHashes := Some hashes; request_rest := ta_type a |})).

Definition account : Account :=
  {| address := "0x00000000000000000000000000000000000000aa";
     signTransaction := λ r,
       Ok (default "0x" (default [] (blobVersionedHashes r) !! 0)) |}.

Definition vm_with (toBlobs : Hex → Res (list Hex)) : viem.lib :=
  {| viem.bytesToHex := bytesToHex;
     viem.hexToBytes := hexToBytes;
     viem.stringToHex := λ s, bytesToHex (list_byte_of_string s);
     viem.toBlobs := toBlobs;
     viem.sha256 := sha256;
     viem.concat := λ hs, String.append "0x" (String.concat "" (map string_drop2 hs));
     viem.parseGwei := λ _, 30000000000%N;
     viem.parseTransaction := λ _, Ok tt;
     viem.privateKeyToAccount := λ _, Ok account;
     viem.prepareTransactionRequest := prepare;
     viem.sendRawTransaction := λ tx, Ok tx;
     viem.sendTransaction := λ a, and_then (prepare a) (signTransaction account);
     viem.getTransaction := λ h, Ok (Some (Some [h]));
     viem.call := λ _, Ok "0x" |}.

Definition vm : viem.lib := vm_with (λ h, Ok [h]).

(** The same library with a [toBlobs] that splits its input in two. *)
Definition vm_two_blobs : viem.lib := vm_with (λ h, Ok [h; "0x00"]).

Definition eth : ethers.lib :=
  {| ethers.toUtf8Bytes := list_byte_of_string;
     ethers.hexlify := bytesToHex;
     ethers.concat := λ hs,
       Ok (String.append "0x" (String.concat "" (map string_drop2 hs)));
     ethers.parseEther := λ _, 0%N;
     ethers.Wallet := λ k,
       if Nat.eqb (String.length k) 0 then Throw "invalid private key"
       else Ok "0x00000000000000000000000000000000000000aa";
     ethers.getFeeData :=
       Ok {| ethers.maxPriorityFeePerGas := Some 1%N;
             ethers.maxFeePerGas := Some 2%N |};
     ethers.getTransactionCount := λ _, Ok 7%N;
     ethers.wallet_signTransaction := λ _ _, Ok "0x03";
     ethers.send := λ _ _, Ok "0x" |}.

Definition env_with (vm : viem.lib) (native : cKzg.lib)
    (key mode : option string) : Env :=
  {| PRIVATE_KEY := key;
     argv2 := mode;
     resolve := λ p, p;
     rootsOfUnity := ["01"; "02"; "03"; "04"];
     V := vm;
     K := native;
     loadKZG := Ok wasm;
     Eth := eth |}.

Definition env : option string → option string → Env := env_with vm native.

Definition key : option string := Some "0x01".

(** The blob of 'hello world' under [vm], and the variables experiment 1
    leaves for it. *)
Definition hello : Hex := "0x68656c6c6f20776f726c64".

Definition hello_vars : Vars :=
  {| versionedHash := Some "0x016c6c6568";
     commitment := "0x68656c6c";
     proof := "0x6c6c6568" |}.

(** [toBlobs] yields two blobs. *)
Definition env_two_blobs : Env := env_with vm_two_blobs native key None.

(** [verifyKzgProof] returns false. *)
Definition env_rejecting : Env := env_with vm native_rejecting key None.

(** [verifyBlobKzgProof] returns false. *)
Definition env_rejecting_blob : Env :=
  env_with vm native_rejecting_blob key None.

End Ref.

(** ** Facts about the libraries that some properties rely on *)

(** viem's codec decodes what it encodes. *)
Definition codec_roundtrip (Vm : viem.lib) : Prop :=
  ∀ b : ByteArray, viem.hexToBytes Vm (viem.bytesToHex Vm b) = Ok b.

(** viem's [bytesToHex] prints lower-case digits. *)
Definition codec_lowercase (Vm : viem.lib) : Prop :=
  ∀ b : ByteArray, toLowerCase (viem.bytesToHex Vm b) = viem.bytesToHex Vm b.

(** ** Properties of runs *)

(** A run in which a c-kzg verification other than the point verification
    [verifyKzgProof] returned false did not return. *)
Definition stops_on_failed_verification {A} (m : M A) : Prop :=
  ∀ fn, fn ≠ "verifyKzgProof" →
        In (Verified LibCKzg fn false) (trace m) → returns (result m) = false.

(** The calls of [setup] when nothing throws. *)
Definition setup_calls : list Event :=
  [ Called LibCKzg "loadTrustedSetup";
    Called LibWasmKzg "loadKZG";
    Called LibWasmKzg "loadTrustedSetup" ].

(** The run of index.ts came through everything before the kzg-wasm
    block of experiment 6. *)
Definition Index_before_wasm (E : Env) (privateKey : Hex) (tag : ByteArray)
    (send : bool) (wasm : wasmKzg.lib) (blob : Hex) (vars : Vars) : Prop :=
  ∃ account blobs z,
    result (setup E privateKey "hello world") = Ok (account, wasm, blobs, blob) ∧
    result (experiment1 E send account blobs blob) = Ok vars ∧
    result (experiment2 E tag blob vars) = Ok tt ∧
    result (experiment3 E tag blob vars) = Ok tt ∧
    Index.zBytes E blob = Ok z ∧
    result (experiment4 E z blob vars) = Ok tt ∧
    result (experiment5 E z blob vars) = Ok tt ∧
    result (experiment6_ckzg E blob vars) = Ok tt.

(** The run of the second experiment script came through everything
    before experiment 8. *)
Definition Fusaka_before_experiment8 (E : Env) (privateKey : Hex)
    (tag : ByteArray) (send : bool) (blob : Hex) : Prop :=
  ∃ account wasm blobs vars z,
    result (setup E privateKey Fusaka.rawBlob) = Ok (account, wasm, blobs, blob) ∧
    result (experiment1 E send account blobs blob) = Ok vars ∧
    result (experiment2 E tag blob vars) = Ok tt ∧
    result (experiment3 E tag blob vars) = Ok tt ∧
    Fusaka.zBytes E = Ok z ∧
    result (experiment4 E z blob vars) = Ok tt ∧
    result (experiment5 E z blob vars) = Ok tt ∧
    result (experiment6 E wasm blob vars) = Ok tt ∧
    result (Fusaka.experiment7 E blob vars) = Ok tt.

(** ** The functions the walkthrough script defines and does not call *)

Module ViemWalkthrough.
Section Script.
Context (E : Env).

(** [signRawTransaction]: prepare with the adapted kzg-wasm, sign, send. *)
Definition signRawTransaction (PRIVATE_KEY : Hex) : M unit :=
  let* account := lift (viem.privateKeyToAccount (V E) PRIVATE_KEY) in
  let* kzg := call LibWasmKzg "loadKZG" (loadKZG E) in
  let* blobs := lift (viem.toBlobs (V E) (viem.stringToHex (V E) "hello world")) in
  let* request := call LibRpc "prepareTransactionRequest"
    (viem.prepareTransactionRequest (V E)
       (blob_transaction (V E) account blobs (adaptedKzg (V E) kzg) None)) in
  let* serializedTx := lift (signTransaction account request) in
  let* txHash := call LibRpc "sendRawTransaction"
                   (viem.sendRawTransaction (V E) serializedTx) in
  ret tt.

(** [blobs.map((blob) => kzg.blobToKZGCommitment(blob))]. *)
Fixpoint commitments_of (kzg : wasmKzg.lib) (blobs : list Hex) : M (list Hex) :=
  match blobs with
  | [] => ret []
  | blob :: rest =>
      let* c := call LibWasmKzg "blobToKZGCommitment"
                  (wasmKzg.blobToKZGCommitment kzg blob) in
      let* cs := commitments_of kzg rest in
      ret (c :: cs)
  end.

(** [makeBlobVersionedHashes]: hashes the first commitment, prepares a
    request and prints the first versioned hash of the request next to the
    hash; [sha256] of a missing commitment and index 0 of a missing array
    throw. *)
Definition makeBlobVersionedHashes (PRIVATE_KEY : Hex) : M (option Hex * Hex) :=
  let* kzg := call LibWasmKzg "loadKZG" (loadKZG E) in
  let* blobs := lift (viem.toBlobs (V E) (viem.stringToHex (V E) "hello world")) in
  (* the source calls this list of commitments blobVersionedHashes *)
  let* commitments := commitments_of kzg blobs in
  let* first := lift (defined (commitments !! 0)) in
  let* versioned_hash := lift (viem.sha256 (V E) (inl first)) in
  let* account := lift (viem.privateKeyToAccount (V E) PRIVATE_KEY) in
  let* request := call LibRpc "prepareTransactionRequest"
    (viem.prepareTransactionRequest (V E)
       (blob_transaction (V E) account blobs (adaptedKzg (V E) kzg) None)) in
  let* printed := lift (first_of (blobVersionedHashes request)) in
  ret (printed, versioned_hash).
End Script.
End ViemWalkthrough.

(** ** Console output: [JSON.stringify] with [bigintReplacer] *)

(** The values [JSON.stringify] is given; numbers are never looked into. *)
#[warnings="-register-all"]
Inductive JsValue : Type :=
| JsUndefined
| JsNull
| JsBool (b : bool)
| JsNumber (n : Z)
| JsBigInt (n : Z)
| JsString (s : string)
| JsArray (items : list JsValue)
| JsObject (fields : list (string * JsValue)).

(** [value.toString()] of a bigint: its decimal digits, with a sign when
    negative. *)
Definition bigint_toString (n : Z) : string :=
  NilZero.string_of_int (Z.to_int n).

(** [function bigintReplacer(_key, value)]. *)
Definition bigintReplacer (_key : string) (value : JsValue) : JsValue :=
  match value with
  | JsBigInt n => JsString (bigint_toString n)
  | _ => value
  end.

(** The key of an array element: its index in decimal. *)
Definition index_key (i : nat) : string :=
  NilZero.string_of_uint (Nat.to_uint i).

(** The pass of [JSON.stringify(value, replacer)] over a value, without
    the text it builds: the replacer is applied to each property before
    the property is looked at, arrays and objects are entered, and a
    bigint that is still there throws a [TypeError].  The replacer decides
    what is entered, so the pass is bounded by [fuel]; [None] is fuel that
    ran out.  (The printed values have no [toJSON] and no cycles.) *)
Fixpoint JSON_stringify (fuel : nat) (replacer : string → JsValue → JsValue)
    (key : string) (value : JsValue) : option (Res unit) :=
  match fuel with
  | 0 => None
  | S fuel' =>
      match replacer key value with
      | JsBigInt _ => Some (Throw TypeError)
      | JsArray items =>
          (fix elements (i : nat) (xs : list JsValue) : option (Res unit) :=
             match xs with
             | [] => Some (Ok tt)
             | x :: rest =>
                 match JSON_stringify fuel' replacer (index_key i) x with
                 | Some (Ok _) => elements (S i) rest
                 | other => other
                 end
             end) 0 items
      | JsObject fields =>
          (fix properties (fs : list (string * JsValue)) : option (Res unit) :=
             match fs with
             | [] => Some (Ok tt)
             | (k, x) :: rest =>
                 match JSON_stringify fuel' replacer k x with
                 | Some (Ok _) => properties rest
                 | other => other
                 end
             end) fields
      | _ => Some (Ok tt)
      end
  end.

(** How deep arrays and objects are nested in a value. *)
Fixpoint depth (v : JsValue) : nat :=
  match v with
  | JsArray items => S (list_max (map depth items))
  | JsObject fields => S (list_max (map (λ f, depth f.2) fields))
  | _ => 0
  end.

(** Whether a bigint occurs anywhere in a value. *)
Fixpoint has_bigint (v : JsValue) : bool :=
  match v with
  | JsBigInt _ => true
  | JsArray items => existsb has_bigint items
  | JsObject fields => existsb (λ f, has_bigint f.2) fields
  | _ => false
  end.

(** ** Further properties of runs *)

(** Every call of a run satisfies [P]. *)
Definition only_calls {A} (P : Event → bool) (m : M A) : Prop :=
  forallb P (trace m) = true.

Definition is_call (l : Lib) (fn : string) (e : Event) : bool :=
  match e with
  | Called l' fn' | Verified l' fn' _ =>
      match l, l' with
      | LibCKzg, LibCKzg | LibWasmKzg, LibWasmKzg | LibRpc, LibRpc =>
          String.eqb fn fn'
      | _, _ => false
      end
  end.

(** The calls that put a transaction on the network. *)
Definition is_broadcast (e : Event) : bool :=
  is_call LibRpc "sendRawTransaction" e
  || is_call LibRpc "sendTransaction" e
  || is_call LibRpc "send" e.

(** kzg-wasm computes on hex strings what c-kzg computes on bytes. *)
Definition hex_view (Vm : viem.lib) (native : cKzg.lib) (wasm : wasmKzg.lib)
  : Prop :=
  (∀ b, wasmKzg.blobToKZGCommitment wasm (viem.bytesToHex Vm b)
        = and_then (cKzg.blobToKzgCommitment native b)
            (λ c, Ok (viem.bytesToHex Vm c))) ∧
  (∀ b c, wasmKzg.computeBlobKZGProof wasm (viem.bytesToHex Vm b)
            (viem.bytesToHex Vm c)
          = and_then (cKzg.computeBlobKzgProof native b c)
              (λ p, Ok (viem.bytesToHex Vm p))).

(** * Properties *)

(** ** Runs *)

Lemma result_bind {A B} (m : M A) (f : A → M B) :
  result (bind m f) =
  match result m with
  | Ok a => result (f a)
  | Throw e => Throw e
  end.
Proof.
  destruct m as [t [a|e]]; simpl; [|reflexivity].
  destruct (f a); reflexivity.
Qed.

Lemma trace_bind {A B} (m : M A) (f : A → M B) :
  trace (bind m f) =
  trace m ++ match result m with
             | Ok a => trace (f a)
             | Throw _ => []
             end.
Proof.
  destruct m as [t [a|e]]; simpl; [|by rewrite app_nil_r].
  destruct (f a); reflexivity.
Qed.


Lemma bind_returned {A B} t (a : A) (f : A → M B) :
  bind (t, Ok a) f = (t ++ trace (f a), result (f a)).
Proof. simpl. by destruct (f a). Qed.


Lemma bind_lift {A B} (a : A) (f : A → M B) : bind (lift (Ok a)) f = f a.
Proof. unfold lift. rewrite bind_returned. simpl. by destruct (f a). Qed.


Lemma bind_call {A B} l fn (a : A) (f : A → M B) :
  bind (call l fn (Ok a)) f = (Called l fn :: trace (f a), result (f a)).
Proof. unfold call. by rewrite bind_returned. Qed.

Lemma bind_verify {B} l fn (b : bool) (f : bool → M B) :
  bind (verify l fn (Ok b)) f = (Verified l fn b :: trace (f b), result (f b)).
Proof. unfold verify. by rewrite bind_returned. Qed.

Lemma result_lift {A} (r : Res A) : result (lift r) = r.
Proof. reflexivity. Qed.

Lemma result_call {A} l fn (r : Res A) : result (call l fn r) = r.
Proof. reflexivity. Qed.

Lemma result_ret {A} (a : A) : result (ret a) = Ok a.
Proof. reflexivity. Qed.


(** One step of a run whose library call is known by [H]. *)
Ltac step H :=
  rewrite result_bind, ?result_lift, ?result_call, ?result_ret, ?H;
  cbv beta iota.

(** A run that returned went through both halves of a sequence. *)
Lemma bind_Ok_inv {A B} (m : M A) (f : A → M B) (b : B) :
  result (bind m f) = Ok b → ∃ a, result m = Ok a ∧ result (f a) = Ok b.
Proof.
  rewrite result_bind. destruct (result m) as [a|e]; [eauto | discriminate].
Qed.

Lemma lift_Ok_inv {A} (r : Res A) (a : A) : result (lift r) = Ok a → r = Ok a.
Proof. done. Qed.

Lemma call_Ok_inv {A} l fn (r : Res A) (a : A) :
  result (call l fn r) = Ok a → r = Ok a.
Proof. done. Qed.

Lemma verify_Ok_inv l fn (r : Res bool) (b : bool) :
  result (verify l fn r) = Ok b → r = Ok b.
Proof. destruct r; simpl; congruence. Qed.

(** Splits the hypothesis that a sequence returned into its steps. *)
Ltac returned_step Ha :=
  lazymatch type of Ha with
  | result (lift _) = Ok _ => apply lift_Ok_inv in Ha
  | result (call _ _ _) = Ok _ => apply call_Ok_inv in Ha
  | result (verify _ _ _) = Ok _ => apply verify_Ok_inv in Ha
  | _ => idtac
  end.

Ltac returned H :=
  repeat match type of H with
  | result (bind _ _) = Ok _ =>
      let a := fresh "v" in
      let Ha := fresh "Hv" in
      apply bind_Ok_inv in H as (a & Ha & H);
      returned_step Ha
  end;
  returned_step H.

(** ** Case-insensitive comparison *)

Lemma N_of_ascii_inj (c d : ascii) : N_of_ascii c = N_of_ascii d → c = d.
Proof.
  intros H. rewrite <- (ascii_N_embedding c), <- (ascii_N_embedding d).
  by rewrite H.
Qed.

Lemma is_upper_spec (c : ascii) :
  is_upper c = true ↔ (65 ≤ N_of_ascii c ∧ N_of_ascii c ≤ 90)%N.
Proof.
  unfold is_upper. rewrite andb_true_iff, !N.leb_le. tauto.
Qed.

Lemma lower_of_upper (c d : ascii) :
  is_upper c = true → N_of_ascii d = (N_of_ascii c + 32)%N →
  lower_ascii c = d ∧ lower_ascii d = d.
Proof.
  intros Hc Hd. unfold lower_ascii. rewrite Hc. split.
  - apply N_of_ascii_inj. rewrite Hd. apply N_ascii_embedding.
    apply is_upper_spec in Hc. lia.
  - destruct (is_upper d) eqn:Hu; [|done].
    apply is_upper_spec in Hc, Hu. lia.
Qed.

Lemma same_letter_lower (c d : ascii) :
  same_letter c d = true → lower_ascii c = lower_ascii d.
Proof.
  unfold same_letter. rewrite !orb_true_iff, !andb_true_iff, !N.eqb_eq.
  intros [[H | [Hc H]] | [Hd H]].
  - by rewrite (N_of_ascii_inj _ _ H).
  - destruct (lower_of_upper c d Hc H) as [-> ->]. done.
  - destruct (lower_of_upper d c Hd H) as [-> ->]. done.
Qed.

Lemma differ_only_in_case_lower (s t : string) :
  differ_only_in_case s t = true → toLowerCase s = toLowerCase t.
Proof.
  revert t. induction s as [|c s IH]; intros [|d t]; simpl; try done.
  rewrite andb_true_iff. intros [Hc Hs].
  by rewrite (same_letter_lower _ _ Hc), (IH _ Hs).
Qed.

Lemma equalHex_defined (a b : Hex) :
  equalHex (Some a) (Some b) = Ok (String.eqb (toLowerCase a) (toLowerCase b)).
Proof. reflexivity. Qed.

Lemma equalHex_refl (a : Hex) : equalHex (Some a) (Some a) = Ok true.
Proof. by rewrite equalHex_defined, String.eqb_refl. Qed.

(** C8. [equalHex(a, b)] on two hex strings returns true exactly when
    their lower-casings are equal (and false exactly when they differ), so
    two strings that differ only in letter case compare equal and cannot
    take a mismatch branch. *)
Theorem equalHex_case_insensitive (a b : Hex) :
  (equalHex (Some a) (Some b) = Ok true ↔ toLowerCase a = toLowerCase b) ∧
  (equalHex (Some a) (Some b) = Ok false ↔ toLowerCase a ≠ toLowerCase b) ∧
  (differ_only_in_case a b = true → equalHex (Some a) (Some b) = Ok true).
Proof.
  rewrite equalHex_defined.
  destruct (String.eqb_spec (toLowerCase a) (toLowerCase b)) as [Heq|Hne].
  - split; [tauto|]. split; [|done].
    split; [discriminate | done].
  - split; [split; [discriminate | done]|].
    split; [tauto|].
    intros H. by apply differ_only_in_case_lower in H.
Qed.

Lemma equalHex_case_insensitive_witness :
  differ_only_in_case "0xAbCd01" "0xaBcD01" = true ∧
  equalHex (Some "0xAbCd01") (Some "0xaBcD01") = Ok true.
Proof.
  split; [reflexivity|].
  apply (equalHex_case_insensitive "0xAbCd01" "0xaBcD01").
  reflexivity.
Defined.


(** ** The ethers-based script: blob and sidecar *)

Lemma make_blob_fits (data : ByteArray) :
  length data ≤ 32 * 4096 →
  EthersTx.make_blob data = Ok (data ++ replicate (32 * 4096 - length data) x00).
Proof.
  intros Hfit. unfold EthersTx.make_blob, uint8_set, new_Uint8Array.
  rewrite length_replicate, Nat.add_0_l.
  replace (32 * 4096 <? length data)%nat with false
    by (symmetry; apply Nat.ltb_ge; exact Hfit).
  rewrite take_0, drop_replicate, app_nil_l. reflexivity.
Qed.

Lemma make_blob_overflow (data : ByteArray) :
  32 * 4096 < length data → EthersTx.make_blob data = Throw RangeError.
Proof.
  intros Hbig. unfold EthersTx.make_blob, uint8_set, new_Uint8Array.
  rewrite length_replicate, Nat.add_0_l.
  replace (32 * 4096 <? length data)%nat with true
    by (symmetry; apply Nat.ltb_lt; exact Hbig).
  reflexivity.
Qed.

Lemma eip_is_spec (E : Env) (s : string) :
  EthersTx.eip_is E s = true ↔ argv2 E = Some s.
Proof.
  unfold EthersTx.eip_is. destruct (argv2 E) as [eip|]; [|done].
  rewrite String.eqb_eq. split; congruence.
Qed.

(** What a returned [build_transaction] went through. *)
Lemma build_transaction_returned (E : Env) (wallet : Hex) (tx : ethers.Transaction) :
  result (EthersTx.build_transaction E) = Ok (wallet, tx) →
  ∃ kzg blob commitment proof,
    loadKZG E = Ok kzg ∧
    EthersTx.make_blob (ethers.toUtf8Bytes (Eth E) "Long live the BLOBs!") = Ok blob ∧
    wasmKzg.blobToKZGCommitment kzg (ethers.hexlify (Eth E) blob) = Ok commitment ∧
    (if EthersTx.eip_is E "4844"
     then wasmKzg.computeBlobKZGProof kzg (ethers.hexlify (Eth E) blob) commitment
          = Ok proof
     else ∃ proofs,
          wasmKzg.computeCellsAndKZGProofs kzg (ethers.hexlify (Eth E) blob)
          = Ok proofs ∧ ethers.concat (Eth E) proofs = Ok proof) ∧
    ethers.tx_blobs tx =
      [ {| ethers.data := ethers.hexlify (Eth E) blob;
           ethers.commitment := commitment; ethers.proof := proof |} ] ∧
    ethers.tx_blobWrapperVersion tx =
      (if EthersTx.eip_is E "7594" then Some 1%N else None).
Proof.
  intros H. unfold EthersTx.build_transaction in H. returned H.
  injection H as <- <-. simpl.
  exists v, v3, v4, v5. repeat split; try done.
  destruct (EthersTx.eip_is E "4844").
  - by returned Hv5.
  - returned Hv5. eauto.
Qed.

(** C6. The blob the script builds is a buffer of exactly 32 * 4096 bytes
    that starts with the payload and is zero everywhere after it; it is
    this buffer, as hex, that the transaction carries.  (A payload longer
    than the buffer makes [set] throw a [RangeError].) *)
Theorem blob_is_fixed_size_zero_padded (E : Env) (data : ByteArray) :
  (length data ≤ 32 * 4096 →
   ∃ blob, EthersTx.make_blob data = Ok blob ∧
     length blob = 32 * 4096 ∧
     take (length data) blob = data ∧
     ∀ i, length data ≤ i → i < 32 * 4096 → blob !! i = Some x00) ∧
  (32 * 4096 < length data → EthersTx.make_blob data = Throw RangeError) ∧
  (∀ wallet tx, result (EthersTx.build_transaction E) = Ok (wallet, tx) →
   ∃ blob,
     EthersTx.make_blob (ethers.toUtf8Bytes (Eth E) "Long live the BLOBs!") = Ok blob ∧
     map ethers.data (ethers.tx_blobs tx) = [ethers.hexlify (Eth E) blob]).
Proof.
  split; [|split].
  - intros Hfit. eexists. split; [by apply make_blob_fits|].
    split; [|split].
    + rewrite length_app, length_replicate. lia.
    + by rewrite take_app_length.
    + intros i Hlo Hhi. rewrite lookup_app_r by done.
      apply lookup_replicate_2. lia.
  - apply make_blob_overflow.
  - intros wallet tx H.
    apply build_transaction_returned in H
      as (kzg & blob & c & p & _ & Hblob & _ & _ & Hblobs & _).
    exists blob. by rewrite Hblobs.
Qed.

Lemma blob_is_fixed_size_zero_padded_witness :
  length (list_byte_of_string "Long live the BLOBs!") ≤ 32 * 4096 ∧
  ∃ blob,
    EthersTx.make_blob (list_byte_of_string "Long live the BLOBs!") = Ok blob ∧
    length blob = 32 * 4096 ∧
    take (length (list_byte_of_string "Long live the BLOBs!")) blob
    = list_byte_of_string "Long live the BLOBs!" ∧
    blob !! 20 = Some x00.
Proof.
  assert (Hfit : length (list_byte_of_string "Long live the BLOBs!") ≤ 32 * 4096).
  { change (20 ≤ 32 * 4096). lia. }
  split; [exact Hfit|].
  pose proof (proj1 (blob_is_fixed_size_zero_padded
                       (Ref.env Ref.key (Some "4844"))
                       (list_byte_of_string "Long live the BLOBs!")) Hfit)
    as (blob & Hblob & Hlen & Htake & Hzero).
  exists blob. split; [done|]. split; [done|]. split; [done|].
  apply Hzero; [change (20 ≤ 20); lia | lia].
Defined.

(** C10. In the transaction [main] assembles, the sidecar proof is the
    blob proof of [computeBlobKZGProof] in mode 4844 and the concatenation
    of the cell proofs of [computeCellsAndKZGProofs] in mode 7594 (and for
    any other argument); [blobWrapperVersion] is 1 in mode 7594 and stays
    unset otherwise. *)
Theorem proof_follows_eip_mode (E : Env) (wallet : Hex) (tx : ethers.Transaction) :
  result (EthersTx.build_transaction E) = Ok (wallet, tx) →
  ∃ kzg b,
    loadKZG E = Ok kzg ∧
    ethers.tx_blobs tx = [b] ∧
    wasmKzg.blobToKZGCommitment kzg (ethers.data b) = Ok (ethers.commitment b) ∧
    (argv2 E = Some "4844" →
     wasmKzg.computeBlobKZGProof kzg (ethers.data b) (ethers.commitment b)
     = Ok (ethers.proof b)) ∧
    (argv2 E = Some "7594" →
     ∃ proofs, wasmKzg.computeCellsAndKZGProofs kzg (ethers.data b) = Ok proofs ∧
               ethers.concat (Eth E) proofs = Ok (ethers.proof b)) ∧
    (argv2 E ≠ Some "4844" →
     ∃ proofs, wasmKzg.computeCellsAndKZGProofs kzg (ethers.data b) = Ok proofs ∧
               ethers.concat (Eth E) proofs = Ok (ethers.proof b)) ∧
    (ethers.tx_blobWrapperVersion tx = Some 1%N ↔ argv2 E = Some "7594") ∧
    (argv2 E ≠ Some "7594" → ethers.tx_blobWrapperVersion tx = None).
Proof.
  intros H.
  apply build_transaction_returned in H
    as (kzg & blob & c & p & Hkzg & _ & Hc & Hp & Hblobs & Hver).
  exists kzg, {| ethers.data := ethers.hexlify (Eth E) blob;
                 ethers.commitment := c; ethers.proof := p |}.
  simpl. split; [done|]. split; [done|]. split; [done|].
  assert (Hother : argv2 E ≠ Some "4844" →
    ∃ proofs, wasmKzg.computeCellsAndKZGProofs kzg (ethers.hexlify (Eth E) blob)
              = Ok proofs ∧ ethers.concat (Eth E) proofs = Ok p).
  { intros Hne. destruct (EthersTx.eip_is E "4844") eqn:Hmode; [|done].
    by apply eip_is_spec in Hmode. }
  split; [|split; [|split; [done|]]].
  - intros Hmode. apply eip_is_spec in Hmode. by rewrite Hmode in Hp.
  - intros Hmode. apply Hother. rewrite Hmode. discriminate.
  - rewrite Hver. destruct (EthersTx.eip_is E "7594") eqn:Hmode.
    + apply eip_is_spec in Hmode. split; [|done]. split; done.
    + split; [|done]. split; [done|]. intros Heq.
      apply eip_is_spec in Heq. congruence.
Qed.

Lemma proof_follows_eip_mode_witness :
  ∃ wallet tx,
    result (EthersTx.build_transaction (Ref.env Ref.key (Some "7594")))
    = Ok (wallet, tx) ∧
    ethers.tx_blobWrapperVersion tx = Some 1%N.
Proof.
  assert (Hret : returns (result (EthersTx.build_transaction
                                    (Ref.env Ref.key (Some "7594")))) = true)
    by (vm_compute; reflexivity).
  destruct (result (EthersTx.build_transaction (Ref.env Ref.key (Some "7594"))))
    as [[wallet tx]|e] eqn:Hrun; [|discriminate Hret].
  exists wallet, tx. split; [reflexivity|].
  destruct (proof_follows_eip_mode _ wallet tx Hrun)
    as (kzg & b & _ & _ & _ & _ & _ & _ & Hver & _).
  by apply Hver.
Defined.

(** ** The guards *)

Lemma require_PRIVATE_KEY_missing (E : Env) :
  PRIVATE_KEY E = None ∨ PRIVATE_KEY E = Some "" →
  require_PRIVATE_KEY E = ([], Throw "PRIVATE_KEY is not set").
Proof. unfold require_PRIVATE_KEY. by intros [-> | ->]. Qed.

Lemma require_PRIVATE_KEY_set (E : Env) (k : string) :
  PRIVATE_KEY E = Some k → k ≠ "" → require_PRIVATE_KEY E = lift (Ok k).
Proof.
  unfold require_PRIVATE_KEY. intros -> Hk. by destruct k.
Qed.

Lemma privateKey_missing (E : Env) :
  PRIVATE_KEY E = None ∨ PRIVATE_KEY E = Some "" → EthersTx.privateKey E = "".
Proof. unfold EthersTx.privateKey. by intros [-> | ->]. Qed.

Lemma ethers_without_wallet (E : Env) (e : string) :
  ethers.Wallet (Eth E) (EthersTx.privateKey E) = Throw e →
  trace (EthersTx.script E) = [Called LibWasmKzg "loadKZG"] ∧
  returns (result (EthersTx.script E)) = false.
Proof.
  intros Hwallet.
  unfold EthersTx.script, EthersTx.main, EthersTx.build_transaction.
  destruct (loadKZG E) as [kzg|e']; [|done].
  rewrite bind_call. rewrite Hwallet. done.
Qed.

(** C4. With [PRIVATE_KEY] unset (or empty) every script ends in an
    uncaught error.  The four viem scripts throw 'PRIVATE_KEY is not set'
    from their guard before calling anything.  The ethers script has no
    guard: it passes the empty string on, and its error is the one of the
    wallet constructor, which rejects an empty key; nothing but [loadKZG]
    has been called by then, in particular nothing on the network. *)
Theorem missing_private_key_is_fatal (s : Script) (E : Env) :
  PRIVATE_KEY E = None ∨ PRIVATE_KEY E = Some "" →
  (s ≠ ethers_ts → run s E = ([], Throw "PRIVATE_KEY is not set")) ∧
  (s = ethers_ts →
   (∃ e, ethers.Wallet (Eth E) "" = Throw e) →
   trace (run s E) = [Called LibWasmKzg "loadKZG"] ∧
   ∃ e, result (run s E) = Throw e).
Proof.
  intros Hkey.
  assert (Hguard := require_PRIVATE_KEY_missing E Hkey).
  split.
  - intros Hs.
    destruct s; simpl; try done;
      unfold Index.script, Fusaka.script, ViemKzgProof.script, ViemSend.script;
      by rewrite Hguard.
  - intros -> [e Hwallet]. simpl.
    rewrite <- (privateKey_missing E Hkey) in Hwallet.
    destruct (ethers_without_wallet E e Hwallet) as [Htrace Hres].
    split; [done|].
    destruct (result (EthersTx.script E)) as [[]|e']; [discriminate | eauto].
Qed.

Lemma missing_private_key_is_fatal_witness :
  run index_ts (Ref.env None None) = ([], Throw "PRIVATE_KEY is not set") ∧
  trace (run ethers_ts (Ref.env None (Some "4844")))
  = [Called LibWasmKzg "loadKZG"] ∧
  ∃ e, result (run ethers_ts (Ref.env None (Some "4844"))) = Throw e.
Proof.
  split.
  - apply (missing_private_key_is_fatal index_ts (Ref.env None None));
      [by left | discriminate].
  - apply (missing_private_key_is_fatal ethers_ts (Ref.env None (Some "4844")));
      [by left | reflexivity | by eexists].
Defined.

(** ** The blob-count guard *)

Lemma setup_guard (E : Env) (privateKey : Hex) (data : string)
    (account : Account) (wasm : wasmKzg.lib) (blobs : list Hex) :
  viem.privateKeyToAccount (V E) privateKey = Ok account →
  cKzg.loadTrustedSetup (K E) 0 (mainnetTrustedSetupPath E) = Ok tt →
  loadKZG E = Ok wasm →
  wasmKzg.loadTrustedSetup wasm 0 = Ok tt →
  viem.toBlobs (V E) (viem.stringToHex (V E) data) = Ok blobs →
  setup E privateKey data =
  (setup_calls,
   match blobs with
   | [blob] => Ok (account, wasm, blobs, blob)
   | _ => Throw "Only one blob is assumed in this example"
   end).
Proof.
  intros Hacc Hc Hw Hws Hblobs. unfold setup.
  rewrite Hacc, bind_lift, Hc, bind_call, Hw, bind_call, Hws, bind_call.
  rewrite Hblobs, bind_lift.
  by destruct blobs as [|blob [|]].
Qed.

Lemma not_one_blob {A B} (blobs : list A) (x : A → B) (y : B) :
  length blobs ≠ 1 →
  match blobs with [blob] => x blob | _ => y end = y.
Proof. by destruct blobs as [|blob [|]]. Qed.

(** C7, as the code has it.  By the time the blob list is looked at, the
    trusted set-ups of both KZG libraries have been loaded (three calls).
    With a list of any length but 1 the run then ends in 'Only one blob is
    assumed in this example', having computed or verified nothing with
    KZG and made no network call; with exactly one blob the set-up returns
    that blob and the experiments start. *)
Theorem blob_count_guard (E : Env) (privateKey : Hex) (tag : ByteArray)
    (sendTransaction : bool) (data : string)
    (account : Account) (wasm : wasmKzg.lib) (blobs : list Hex) :
  viem.privateKeyToAccount (V E) privateKey = Ok account →
  cKzg.loadTrustedSetup (K E) 0 (mainnetTrustedSetupPath E) = Ok tt →
  loadKZG E = Ok wasm →
  wasmKzg.loadTrustedSetup wasm 0 = Ok tt →
  viem.toBlobs (V E) (viem.stringToHex (V E) data) = Ok blobs →
  (length blobs ≠ 1 →
   existsb is_kzg_computation setup_calls = false ∧
   existsb is_network_call setup_calls = false ∧
   setup E privateKey data =
     (setup_calls, Throw "Only one blob is assumed in this example") ∧
   (data = "hello world" →
    Index.experimentWithBlob E privateKey tag sendTransaction =
      (setup_calls, Throw "Only one blob is assumed in this example")) ∧
   (data = Fusaka.rawBlob →
    Fusaka.experimentWithBlob E privateKey tag sendTransaction =
      (setup_calls, Throw "Only one blob is assumed in this example"))) ∧
  (length blobs = 1 →
   ∃ blob, blobs = [blob] ∧
     setup E privateKey data = (setup_calls, Ok (account, wasm, blobs, blob))).
Proof.
  intros Hacc Hc Hw Hws Hblobs.
  pose proof (setup_guard E privateKey data account wasm blobs
                Hacc Hc Hw Hws Hblobs) as Hsetup.
  split.
  - intros Hlen. rewrite not_one_blob in Hsetup by done.
    split; [done|]. split; [done|]. split; [done|]. split.
    + intros ->. unfold Index.experimentWithBlob. by rewrite Hsetup.
    + intros ->. unfold Fusaka.experimentWithBlob. by rewrite Hsetup.
  - intros Hlen. destruct blobs as [|blob [|]]; try done. by exists blob.
Qed.

Lemma blob_count_guard_witness :
  Index.experimentWithBlob Ref.env_two_blobs
    "0x01" [x01] true
  = (setup_calls, Throw "Only one blob is assumed in this example").
Proof.
  refine (proj1 (proj2 (proj2 (proj2 (proj1 (blob_count_guard
            Ref.env_two_blobs
            "0x01" [x01] true "hello world" Ref.account Ref.wasm
            ["0x68656c6c6f20776f726c64"; "0x00"] _ _ _ _ _) _)))) _);
    (reflexivity || (simpl; lia)).
Defined.

(** C7, as stated, fails: the throw comes after calls into both KZG
    libraries. *)
Lemma blob_count_guard_counterexample :
  viem.toBlobs (V Ref.env_two_blobs)
    (viem.stringToHex (V Ref.env_two_blobs) "hello world")
  = Ok ["0x68656c6c6f20776f726c64"; "0x00"] ∧
  result (Index.script Ref.env_two_blobs)
  = Throw "Only one blob is assumed in this example" ∧
  trace (Index.script Ref.env_two_blobs) =
    [ Called LibCKzg "loadTrustedSetup"; Called LibWasmKzg "loadKZG";
      Called LibWasmKzg "loadTrustedSetup" ] ∧
  ¬ (forallb (λ e, negb (is_kzg_call e) && negb (is_network_call e))
       (trace (Index.script Ref.env_two_blobs)) = true).
Proof. vm_compute. repeat split; discriminate. Qed.

(** ** Failed verifications *)

Section Stops.
Context {A B : Type}.

Lemma stops_ret (a : A) : stops_on_failed_verification (ret a).
Proof. intros fn _ []. Qed.

Lemma stops_throw (e : string) : stops_on_failed_verification (@throw A e).
Proof. intros fn _ []. Qed.

Lemma stops_lift (r : Res A) : stops_on_failed_verification (lift r).
Proof. intros fn _ []. Qed.

Lemma stops_call l fn' (r : Res A) : stops_on_failed_verification (call l fn' r).
Proof. intros fn _ [H|[]]. discriminate H. Qed.

Lemma stops_bind (m : M A) (f : A → M B) :
  stops_on_failed_verification m →
  (∀ a, stops_on_failed_verification (f a)) →
  stops_on_failed_verification (bind m f).
Proof.
  intros Hm Hf fn Hfn. rewrite trace_bind, result_bind, in_app_iff.
  intros [Hin|Hin].
  - specialize (Hm fn Hfn Hin). by destruct (result m).
  - destruct (result m) as [a|e]; [|done]. by apply (Hf a fn).
Qed.

(** A verification followed by a continuation that does not return when
    the library said no. *)
Lemma stops_verify_bind l fn' (r : Res bool) (k : bool → M B) :
  (∀ b, stops_on_failed_verification (k b)) →
  (l = LibCKzg → fn' ≠ "verifyKzgProof" → returns (result (k false)) = false) →
  stops_on_failed_verification (bind (verify l fn' r) k).
Proof.
  intros Hk Hfalse fn Hfn. destruct r as [b|e].
  - rewrite bind_verify. simpl. intros [Hev|Hin].
    + injection Hev as -> -> ->. by apply Hfalse.
    + by apply (Hk b fn).
  - simpl. intros [H|[]]. discriminate H.
Qed.
End Stops.

Ltac stops_side :=
  let Hl := fresh in
  let Hfn := fresh in
  intros Hl Hfn;
  first
    [ discriminate Hl
    | by destruct Hfn
    | cbv beta; rewrite ?result_bind;
      repeat match goal with
             | |- context [match ?x with _ => _ end] => destruct x; simpl
             end;
      reflexivity ].

Create HintDb stops.

Ltac stops_step :=
  lazymatch goal with
  | |- stops_on_failed_verification ?m =>
      lazymatch m with
      | ret _ => apply stops_ret
      | throw _ => apply stops_throw
      | lift _ => apply stops_lift
      | call _ _ _ => apply stops_call
      | bind (verify _ _ _) _ => apply stops_verify_bind; [intros ? | stops_side]
      | bind _ _ => apply stops_bind; [| intros ?]
      | if ?b then _ else _ => destruct b
      | match ?x with _ => _ end => destruct x
      | _ => solve [auto with stops]
      end
  end.

Ltac stops := repeat stops_step.

Lemma stops_compare_cells (E : Env) (rs cs : list ByteArray) (n i : nat) :
  stops_on_failed_verification (Fusaka.compare_cells E rs cs i n).
Proof.
  revert i. induction n as [|n IH]; intros i; cbn [Fusaka.compare_cells]; stops.
Qed.

Lemma stops_require_PRIVATE_KEY (E : Env) :
  stops_on_failed_verification (require_PRIVATE_KEY E).
Proof. unfold require_PRIVATE_KEY. stops. Qed.

Lemma stops_setup (E : Env) privateKey data :
  stops_on_failed_verification (setup E privateKey data).
Proof. unfold setup. stops. Qed.

Lemma stops_experiment1 (E : Env) send account blobs blob :
  stops_on_failed_verification (experiment1 E send account blobs blob).
Proof. unfold experiment1. stops. Qed.

Lemma stops_experiment2 (E : Env) tag blob vars :
  stops_on_failed_verification (experiment2 E tag blob vars).
Proof. unfold experiment2, manual_versioned_hash. stops. Qed.

Lemma stops_experiment3 (E : Env) tag blob vars :
  stops_on_failed_verification (experiment3 E tag blob vars).
Proof.
  unfold experiment3, experiment3_without_proof, experiment3_with_proof,
    manual_versioned_hash.
  stops.
Qed.

Lemma stops_experiment4 (E : Env) z blob vars :
  stops_on_failed_verification (experiment4 E z blob vars).
Proof. unfold experiment4. stops. Qed.

Lemma stops_experiment5 (E : Env) z blob vars :
  stops_on_failed_verification (experiment5 E z blob vars).
Proof. unfold experiment5. stops. Qed.

Lemma stops_experiment6 (E : Env) wasm blob vars :
  stops_on_failed_verification (experiment6 E wasm blob vars).
Proof. unfold experiment6, experiment6_ckzg, experiment6_wasm. stops. Qed.

Lemma stops_experiment7 (E : Env) blob vars :
  stops_on_failed_verification (Fusaka.experiment7 E blob vars).
Proof. unfold Fusaka.experiment7. stops. Qed.

Lemma stops_experiment8 (E : Env) blob :
  stops_on_failed_verification (Fusaka.experiment8 E blob).
Proof. unfold Fusaka.experiment8. stops. apply stops_compare_cells. Qed.

#[local] Hint Resolve stops_require_PRIVATE_KEY stops_setup stops_experiment1
  stops_experiment2 stops_experiment3 stops_experiment4 stops_experiment5
  stops_experiment6 stops_experiment7 stops_experiment8 stops_compare_cells
  : stops.

Lemma stops_run (s : Script) (E : Env) : stops_on_failed_verification (run s E).
Proof.
  destruct s; simpl.
  - unfold Index.script, Index.experimentWithBlob. stops.
  - unfold Fusaka.script, Fusaka.experimentWithBlob. stops.
  - unfold EthersTx.script, EthersTx.main, EthersTx.build_transaction. stops.
  - unfold ViemKzgProof.script, ViemKzgProof.KZGProofVerification. stops.
  - unfold ViemSend.script, ViemSend.signTransaction. stops.
Qed.

(** What experiment 4 does with the answer of [verifyKzgProof]: nothing
    but print it.  Once its library calls have returned, the block
    returns, whatever the answer was. *)
Lemma experiment4_run (E : Env) z blob vars b pp cb (isValid : bool) :
  viem.hexToBytes (V E) blob = Ok b →
  cKzg.computeKzgProof (K E) b z = Ok pp →
  viem.hexToBytes (V E) (commitment vars) = Ok cb →
  cKzg.verifyKzgProof (K E) cb z pp.2 pp.1 = Ok isValid →
  experiment4 E z blob vars =
  ([Called LibCKzg "computeKzgProof";
    Verified LibCKzg "verifyKzgProof" isValid], Ok tt).
Proof.
  intros Hb Hpp Hcb Hv. unfold experiment4.
  by rewrite Hb, bind_lift, Hpp, bind_call, Hcb, bind_lift, Hv, bind_verify.
Qed.

(** C5, as the code has it.  In every script, a run in which
    [cKzg.verifyBlobKzgProof] (experiment 3) or
    [cKzg.verifyCellKzgProofBatch] (experiment 7) returned false ends in a
    thrown error.  The point verification [cKzg.verifyKzgProof] of
    experiment 4 is different: for every evaluation point, blob and
    answer [isValid], experiment 4 records the answer and returns, and
    both experiment scripts go on with experiment 5 and what follows it,
    so that the outcome of the run does not depend on [isValid]. *)
Theorem failed_verification_throws (s : Script) (E : Env) :
  (∀ fn, fn ≠ "verifyKzgProof" →
     In (Verified LibCKzg fn false) (trace (run s E)) →
     ∃ e, result (run s E) = Throw e) ∧
  (∀ z blob vars b pp cb (isValid : bool),
     viem.hexToBytes (V E) blob = Ok b →
     cKzg.computeKzgProof (K E) b z = Ok pp →
     viem.hexToBytes (V E) (commitment vars) = Ok cb →
     cKzg.verifyKzgProof (K E) cb z pp.2 pp.1 = Ok isValid →
     experiment4 E z blob vars =
     ([Called LibCKzg "computeKzgProof";
       Verified LibCKzg "verifyKzgProof" isValid], Ok tt) ∧
     (∀ privateKey tag send account wasm blobs,
        result (setup E privateKey "hello world")
        = Ok (account, wasm, blobs, blob) →
        result (experiment1 E send account blobs blob) = Ok vars →
        result (experiment2 E tag blob vars) = Ok tt →
        result (experiment3 E tag blob vars) = Ok tt →
        Index.zBytes E blob = Ok z →
        result (Index.experimentWithBlob E privateKey tag send) =
        result (let* _ := experiment5 E z blob vars in
                experiment6 E wasm blob vars)) ∧
     (∀ privateKey tag send account wasm blobs,
        result (setup E privateKey Fusaka.rawBlob)
        = Ok (account, wasm, blobs, blob) →
        result (experiment1 E send account blobs blob) = Ok vars →
        result (experiment2 E tag blob vars) = Ok tt →
        result (experiment3 E tag blob vars) = Ok tt →
        Fusaka.zBytes E = Ok z →
        result (Fusaka.experimentWithBlob E privateKey tag send) =
        result (let* _ := experiment5 E z blob vars in
                let* _ := experiment6 E wasm blob vars in
                let* _ := Fusaka.experiment7 E blob vars in
                Fusaka.experiment8 E blob))).
Proof.
  split.
  - intros fn Hfn Hin. pose proof (stops_run s E fn Hfn Hin) as Hstops.
    destruct (result (run s E)) as [[]|e]; [discriminate | eauto].
  - intros z blob vars b pp cb isValid Hb Hpp Hcb Hv.
    pose proof (experiment4_run E z blob vars b pp cb isValid Hb Hpp Hcb Hv)
      as Hrun.
    assert (H4 : result (experiment4 E z blob vars) = Ok tt) by by rewrite Hrun.
    split; [exact Hrun|]. split.
    + intros privateKey tag send account wasm blobs Hsetup H1 H2 H3 Hz.
      unfold Index.experimentWithBlob.
      step Hsetup. step H1. step H2. step H3. step Hz. step H4. by step Hz.
    + intros privateKey tag send account wasm blobs Hsetup H1 H2 H3 Hz.
      unfold Fusaka.experimentWithBlob.
      step Hsetup. step H1. step H2. step H3. step Hz. step H4. by step Hz.
Qed.

Lemma failed_verification_throws_witness :
  result (run index_ts Ref.env_rejecting_blob) = Throw "Proof verification failed" ∧
  experiment4 Ref.env_rejecting [x68] Ref.hello Ref.hello_vars =
  ([Called LibCKzg "computeKzgProof";
    Verified LibCKzg "verifyKzgProof" false], Ok tt).
Proof.
  split.
  - destruct (proj1 (failed_verification_throws index_ts Ref.env_rejecting_blob)
                "verifyBlobKzgProof") as [e He].
    + discriminate.
    + vm_compute. repeat first [left; reflexivity | right].
    + rewrite He. vm_compute in He. congruence.
  - apply (proj2 (failed_verification_throws index_ts Ref.env_rejecting)
             [x68] Ref.hello Ref.hello_vars
             (list_byte_of_string "hello world")
             (rev (list_byte_of_string "hell"), [x68])
             (list_byte_of_string "hell") false);
      reflexivity.
Defined.

(** C5, as stated, fails: [verifyKzgProof] returns false in experiment 4
    and the script runs to its end. *)
Lemma failed_verification_throws_counterexample :
  In (Verified LibCKzg "verifyKzgProof" false)
     (trace (run index_ts Ref.env_rejecting)) ∧
  result (run index_ts Ref.env_rejecting) = Ok tt.
Proof.
  split.
  - vm_compute. repeat first [left; reflexivity | right].
  - vm_compute. reflexivity.
Qed.

(** ** Experiment 1 and the checks that read its variables *)

Lemma Index_reaches_wasm (E : Env) privateKey tag send wasm blob vars :
  Index_before_wasm E privateKey tag send wasm blob vars →
  result (Index.experimentWithBlob E privateKey tag send)
  = result (experiment6_wasm wasm blob vars).
Proof.
  intros (account & blobs & z & Hsetup & H1 & H2 & H3 & Hz & H4 & H5 & H6).
  unfold Index.experimentWithBlob.
  step Hsetup. step H1. step H2. step H3. step Hz. step H4. step Hz. step H5.
  unfold experiment6. by step H6.
Qed.

Lemma Fusaka_reaches_experiment8 (E : Env) privateKey tag send blob :
  Fusaka_before_experiment8 E privateKey tag send blob →
  result (Fusaka.experimentWithBlob E privateKey tag send)
  = result (Fusaka.experiment8 E blob).
Proof.
  intros (account & wasm & blobs & vars & z
          & Hsetup & H1 & H2 & H3 & Hz & H4 & H5 & H6 & H7).
  unfold Fusaka.experimentWithBlob.
  step Hsetup. step H1. step H2. step H3. step Hz. step H4. step Hz. step H5.
  step H6. by step H7.
Qed.

Section AfterExperiment1.
Context (E : Env).

Abbreviation bytesToHex := (viem.bytesToHex (V E)).
Abbreviation hexToBytes := (viem.hexToBytes (V E)).

(** What a returned experiment 1 went through, and what it left in
    [versionedHash], [commitment] and [proof]. *)
Lemma experiment1_returned send account blobs blob vars :
  result (experiment1 E send account blobs blob) = Ok vars →
  ∃ b c cb p request,
    hexToBytes blob = Ok b ∧
    cKzg.blobToKzgCommitment (K E) b = Ok c ∧
    hexToBytes (bytesToHex c) = Ok cb ∧
    cKzg.computeBlobKzgProof (K E) b cb = Ok p ∧
    commitment vars = bytesToHex c ∧
    proof vars = bytesToHex p ∧
    viem.prepareTransactionRequest (V E)
      (blob_transaction (V E) account blobs (cKzg.as_kzg (K E))
         (Some [ {| sc_blob := blob; sc_commitment := bytesToHex c;
                    sc_proof := bytesToHex p |} ])) = Ok request ∧
    first_of (blobVersionedHashes request) = Ok (versionedHash vars).
Proof.
  intros H. unfold experiment1 in H. returned H.
  exists v, v0, v2, v3, v4.
  assert (v1 = v) as -> by congruence.
  assert (Hvars : vars = {| versionedHash := v5; commitment := bytesToHex v0;
                            proof := bytesToHex v3 |}).
  { destruct send.
    - returned H.
      match type of H with
      | result (if ?same then _ else _) = _ => destruct same
      end; [|discriminate H]. by injection H.
    - by injection H. }
  subst vars. by repeat split.
Qed.

Lemma manual_versioned_hash_result {B} tag c h hb (k : Hex → M B) :
  viem.sha256 (V E) c = Ok h → hexToBytes h = Ok hb →
  result (bind (manual_versioned_hash E tag c) k)
  = result (k (bytesToHex (uint8_store hb 0 (tag !! 0)))).
Proof.
  intros Hh Hhb. unfold manual_versioned_hash.
  rewrite result_bind. step Hh. step Hhb. by rewrite result_ret.
Qed.

Lemma experiment2_result blob vars b c h hb vh :
  versionedHash vars = Some vh →
  hexToBytes blob = Ok b →
  cKzg.blobToKzgCommitment (K E) b = Ok c →
  viem.sha256 (V E) (inr c) = Ok h →
  hexToBytes h = Ok hb →
  result (experiment2 E [x01] blob vars) =
  if String.eqb (toLowerCase (bytesToHex (<[0 := x01]> hb))) (toLowerCase vh)
  then Ok tt else Throw "versioned hash mismatch".
Proof.
  intros Hvh Hb Hc Hh Hhb. unfold experiment2.
  step Hb. step Hc.
  rewrite (manual_versioned_hash_result _ _ _ _ _ Hh Hhb).
  rewrite Hvh, result_bind, result_lift, equalHex_defined. cbv beta iota.
  by destruct (String.eqb _ _).
Qed.

(** C1. After experiment 1, [versionedHash] is the first entry of the
    [blobVersionedHashes] of the prepared request.  Experiment 2 hashes
    the commitment of the blob, overwrites byte 0 with the version tag
    0x01 and compares: it returns when the two hashes are equal as hex
    strings (letter case aside), and otherwise the script ends in
    'versioned hash mismatch'. *)
Theorem versioned_hash_check send account blobs blob vars b c h hb vh :
  viem.hexToBytes (V E) "0x01" = Ok [x01] →
  result (experiment1 E send account blobs blob) = Ok vars →
  versionedHash vars = Some vh →
  hexToBytes blob = Ok b →
  cKzg.blobToKzgCommitment (K E) b = Ok c →
  viem.sha256 (V E) (inr c) = Ok h →
  hexToBytes h = Ok hb →
  let mine := bytesToHex (<[0 := x01]> hb) in
  VERSIONED_HASH_VERSION_KZG E = Ok [x01] ∧
  (∃ p request,
     viem.prepareTransactionRequest (V E)
       (blob_transaction (V E) account blobs (cKzg.as_kzg (K E))
          (Some [ {| sc_blob := blob; sc_commitment := bytesToHex c;
                     sc_proof := p |} ])) = Ok request ∧
     first_of (blobVersionedHashes request) = Ok (Some vh)) ∧
  (toLowerCase mine = toLowerCase vh →
   result (experiment2 E [x01] blob vars) = Ok tt) ∧
  (toLowerCase mine ≠ toLowerCase vh →
   result (experiment2 E [x01] blob vars) = Throw "versioned hash mismatch" ∧
   ∀ privateKey wasm,
     result (setup E privateKey "hello world") = Ok (account, wasm, blobs, blob) →
     result (Index.experimentWithBlob E privateKey [x01] send)
     = Throw "versioned hash mismatch" ∧
     (PRIVATE_KEY E = Some privateKey → privateKey ≠ "" → send = true →
      result (Index.script E) = Throw "versioned hash mismatch")).
Proof.
  intros Htag Hexp1 Hvh Hb Hc Hh Hhb mine.
  pose proof (experiment2_result blob vars b c h hb vh Hvh Hb Hc Hh Hhb) as Hexp2.
  fold mine in Hexp2.
  split; [exact Htag|]. split.
  - apply experiment1_returned in Hexp1
      as (b' & c' & cb & p & request & Hb' & Hc' & _ & _ & _ & _ & Hreq & Hfirst).
    assert (b' = b) as -> by congruence.
    assert (c' = c) as -> by congruence.
    exists (bytesToHex p), request. by rewrite <- Hvh.
  - split.
    + intros Heq. rewrite Hexp2. by rewrite (proj2 (String.eqb_eq _ _) Heq).
    + intros Hne. apply String.eqb_neq in Hne. rewrite Hne in Hexp2.
      split; [done|]. intros privateKey wasm Hsetup.
      assert (Hrun : result (Index.experimentWithBlob E privateKey [x01] send)
                     = Throw "versioned hash mismatch").
      { unfold Index.experimentWithBlob.
        rewrite result_bind, Hsetup. rewrite result_bind, Hexp1.
        by rewrite result_bind, Hexp2. }
      split; [done|]. intros Hkey Hset ->.
      unfold Index.script.
      rewrite (require_PRIVATE_KEY_set E privateKey Hkey Hset), bind_lift.
      unfold VERSIONED_HASH_VERSION_KZG. by rewrite Htag, bind_lift.
Qed.

(** C2. In the second block of experiment 6 the commitment and the blob
    proof computed by kzg-wasm are compared, letter case aside, with the
    ones c-kzg computed in experiment 1: the block returns when both
    agree, throws 'Commitment mismatch' when the commitments differ and
    'Proof mismatch' when only the proofs differ.  In index.ts this block
    is the last one, so its outcome is the outcome of the script. *)
Theorem backends_agree_or_throw send account blobs blob vars wasm cw pw :
  result (experiment1 E send account blobs blob) = Ok vars →
  wasmKzg.blobToKZGCommitment wasm blob = Ok cw →
  wasmKzg.computeBlobKZGProof wasm blob cw = Ok pw →
  ∃ b c cb p,
    hexToBytes blob = Ok b ∧
    cKzg.blobToKzgCommitment (K E) b = Ok c ∧
    hexToBytes (bytesToHex c) = Ok cb ∧
    cKzg.computeBlobKzgProof (K E) b cb = Ok p ∧
    result (experiment6_wasm wasm blob vars) =
    (if String.eqb (toLowerCase cw) (toLowerCase (bytesToHex c)) then
       if String.eqb (toLowerCase pw) (toLowerCase (bytesToHex p))
       then Ok tt else Throw "Proof mismatch"
     else Throw "Commitment mismatch") ∧
    (∀ privateKey tag,
       Index_before_wasm E privateKey tag send wasm blob vars →
       result (Index.experimentWithBlob E privateKey tag send)
       = result (experiment6_wasm wasm blob vars)).
Proof.
  intros Hexp1 Hcw Hpw.
  apply experiment1_returned in Hexp1
    as (b & c & cb & p & request & Hb & Hc & Hcb & Hp & Hcommit & Hproof & _).
  exists b, c, cb, p.
  split; [done|]. split; [done|]. split; [done|]. split; [done|].
  split; [|intros privateKey tag; apply Index_reaches_wasm].
  unfold experiment6_wasm.
  step Hcw. step Hpw.
  rewrite Hcommit, Hproof, !equalHex_defined, result_bind, result_lift.
  destruct (String.eqb (toLowerCase cw) _); [|done].
  rewrite result_bind, result_lift.
  by destruct (String.eqb (toLowerCase pw) _).
Qed.

(** The c-kzg block of experiment 6 against recomputed values [c'] and
    [p']: two library calls, then the comparisons with [commitment] and
    [proof], the commitment first. *)
Lemma experiment6_ckzg_run (E' : Env) blob vars b c' p' :
  viem.hexToBytes (V E') blob = Ok b →
  cKzg.blobToKzgCommitment (K E') b = Ok c' →
  cKzg.computeBlobKzgProof (K E') b c' = Ok p' →
  experiment6_ckzg E' blob vars =
  ([Called LibCKzg "blobToKzgCommitment"; Called LibCKzg "computeBlobKzgProof"],
   if String.eqb (toLowerCase (viem.bytesToHex (V E') c'))
        (toLowerCase (commitment vars))
   then if String.eqb (toLowerCase (viem.bytesToHex (V E') p'))
             (toLowerCase (proof vars))
        then Ok tt else Throw "Proof mismatch"
   else Throw "Commitment mismatch").
Proof.
  intros Hb Hc Hp. unfold experiment6_ckzg.
  rewrite Hb, !bind_lift, Hc, bind_call, bind_lift, Hp, bind_call.
  rewrite !equalHex_defined, !bind_lift.
  destruct (String.eqb _ (toLowerCase (commitment vars))); [|done].
  rewrite ?bind_lift.
  by destruct (String.eqb _ (toLowerCase (proof vars))).
Qed.

(** The first block of experiment 3 against a recomputed commitment [c']. *)
Lemma experiment3_without_proof_result (E' : Env) tag blob vars b c' h hb :
  viem.hexToBytes (V E') blob = Ok b →
  cKzg.blobToKzgCommitment (K E') b = Ok c' →
  viem.sha256 (V E') (inr c') = Ok h →
  viem.hexToBytes (V E') h = Ok hb →
  result (experiment3_without_proof E' tag blob vars) =
  match versionedHash vars with
  | Some vh =>
      if String.eqb
           (toLowerCase (viem.bytesToHex (V E') (uint8_store hb 0 (tag !! 0))))
           (toLowerCase vh)
      then Ok tt else Throw "Versioned hash mismatch"
  | None => Throw TypeError
  end.
Proof.
  intros Hb Hc Hh Hhb. unfold experiment3_without_proof, manual_versioned_hash.
  step Hb. step Hc.
  rewrite result_bind. step Hh. step Hhb. rewrite result_ret.
  rewrite result_bind, result_lift.
  destruct (versionedHash vars) as [vh|]; [|done].
  rewrite equalHex_defined. by destruct (String.eqb _ _).
Qed.

(** C9.  The later experiments compute the commitment and the blob proof
    of the blob again and compare.  Let experiment 1 have returned with
    the commitment [c] and the proof [p] of c-kzg in [commitment] and
    [proof].

    The c-kzg block of experiment 6, run against any c-kzg [K E'] whose
    recomputation gives [c'] and [p'], makes the two library calls and
    returns when [c'] and [p'] print as [c] and [p] (letter case aside);
    it throws 'Commitment mismatch' when the commitments differ and
    'Proof mismatch' when only the proofs differ.  With the library of
    experiment 1 itself the recomputation gives [c] and [p] again and the
    block returns: neither mismatch can be reached.  (Experiment 1
    computed the proof from the decoded hex commitment and experiment 6
    computes it from the bytes, hence the round trip of the codec.)

    The first block of experiment 3 hashes the recomputed commitment and
    compares the versioned hash; with the library of experiment 2 it
    returns whenever experiment 2 did. *)
Theorem recomputation_never_mismatches (E' : Env) send account blobs blob vars tag :
  codec_roundtrip (V E) →
  V E' = V E →
  result (experiment1 E send account blobs blob) = Ok vars →
  ∃ b c p,
    hexToBytes blob = Ok b ∧
    cKzg.blobToKzgCommitment (K E) b = Ok c ∧
    cKzg.computeBlobKzgProof (K E) b c = Ok p ∧
    commitment vars = bytesToHex c ∧
    proof vars = bytesToHex p ∧
    (∀ c' p',
       cKzg.blobToKzgCommitment (K E') b = Ok c' →
       cKzg.computeBlobKzgProof (K E') b c' = Ok p' →
       experiment6_ckzg E' blob vars =
       ([Called LibCKzg "blobToKzgCommitment";
         Called LibCKzg "computeBlobKzgProof"],
        if String.eqb (toLowerCase (bytesToHex c')) (toLowerCase (bytesToHex c))
        then if String.eqb (toLowerCase (bytesToHex p')) (toLowerCase (bytesToHex p))
             then Ok tt else Throw "Proof mismatch"
        else Throw "Commitment mismatch")) ∧
    experiment6_ckzg E blob vars =
    ([Called LibCKzg "blobToKzgCommitment";
      Called LibCKzg "computeBlobKzgProof"], Ok tt) ∧
    (∀ c' h hb,
       cKzg.blobToKzgCommitment (K E') b = Ok c' →
       viem.sha256 (V E) (inr c') = Ok h →
       hexToBytes h = Ok hb →
       result (experiment3_without_proof E' tag blob vars) =
       match versionedHash vars with
       | Some vh =>
           if String.eqb (toLowerCase (bytesToHex (uint8_store hb 0 (tag !! 0))))
                (toLowerCase vh)
           then Ok tt else Throw "Versioned hash mismatch"
       | None => Throw TypeError
       end) ∧
    (result (experiment2 E tag blob vars) = Ok tt →
     result (experiment3_without_proof E tag blob vars) = Ok tt).
Proof.
  intros Hcodec HV Hexp1.
  apply experiment1_returned in Hexp1
    as (b & c & cb & p & request & Hb & Hc & Hcb & Hp & Hcommit & Hproof & _).
  rewrite Hcodec in Hcb. injection Hcb as <-.
  exists b, c, p. do 5 (split; [done|]).
  split; [|split; [|split]].
  - intros c' p' Hc' Hp'.
    rewrite (experiment6_ckzg_run E' blob vars b c' p'); rewrite ?HV; try done.
    by rewrite Hcommit, Hproof.
  - rewrite (experiment6_ckzg_run E blob vars b c p Hb Hc Hp).
    by rewrite Hcommit, Hproof, !String.eqb_refl.
  - intros c' h hb Hc' Hh Hhb.
    rewrite (experiment3_without_proof_result E' tag blob vars b c' h hb);
      rewrite ?HV; done.
  - intros Hexp2. unfold experiment2 in Hexp2.
    apply bind_Ok_inv in Hexp2 as (b' & Hb' & Hexp2).
    apply bind_Ok_inv in Hexp2 as (c' & Hc' & Hexp2).
    apply bind_Ok_inv in Hexp2 as (mine & Hmine & Hexp2).
    apply bind_Ok_inv in Hexp2 as (same & Hsame & Hexp2).
    destruct same; [|discriminate Hexp2].
    unfold experiment3_without_proof.
    rewrite result_bind, Hb'. cbv beta iota.
    rewrite result_bind, Hc'. cbv beta iota.
    rewrite result_bind, Hmine. cbv beta iota.
    by rewrite result_bind, Hsame.
Qed.
End AfterExperiment1.

(** ** Cell recovery *)

Lemma Array_from_indices (i n : nat) :
  Array_from_at (λ i, Ok i) i n = Ok (seq i n).
Proof.
  revert i. induction n as [|n IH]; intros i; simpl; [done|].
  by rewrite IH.
Qed.

Section Cells.
Context (E : Env).
Hypothesis roundtrip : codec_roundtrip (V E).
Hypothesis lowercase : codec_lowercase (V E).

Abbreviation bytesToHex := (viem.bytesToHex (V E)).
Abbreviation hexToBytes := (viem.hexToBytes (V E)).

(** On encoded byte arrays the comparison of the scripts is equality of
    the bytes. *)
Lemma equalHex_bytes (r c : ByteArray) :
  String.eqb (toLowerCase (bytesToHex r)) (toLowerCase (bytesToHex c)) = true
  ↔ r = c.
Proof.
  rewrite !lowercase, String.eqb_eq. split; [|by intros ->].
  intros Heq. pose proof (roundtrip r) as Hr. rewrite Heq, roundtrip in Hr.
  by injection Hr.
Qed.

Lemma compare_cells_step (rs cs : list ByteArray) (i n : nat) :
  result (Fusaka.compare_cells E rs cs i (S n)) =
  match rs !! i, cs !! i with
  | Some r, Some c =>
      if String.eqb (toLowerCase (bytesToHex r)) (toLowerCase (bytesToHex c))
      then result (Fusaka.compare_cells E rs cs (S i) n)
      else Throw "Cell mismatch"
  | _, _ => Throw TypeError
  end.
Proof.
  cbn [Fusaka.compare_cells]. unfold Fusaka.bytesToHex_at.
  rewrite result_bind, result_lift.
  destruct (rs !! i) as [r|]; [|done]. cbn [defined and_then].
  rewrite result_bind, result_lift.
  destruct (cs !! i) as [c|]; [|done]. cbn [defined and_then].
  rewrite result_bind, result_lift, equalHex_defined.
  by destruct (String.eqb _ _).
Qed.

Lemma compare_cells_returns (rs cs : list ByteArray) (n i : nat) :
  result (Fusaka.compare_cells E rs cs i n) = Ok tt ↔
  ∀ j, i ≤ j → j < i + n → ∃ c, rs !! j = Some c ∧ cs !! j = Some c.
Proof.
  revert i. induction n as [|n IH]; intros i.
  - split; [|done]. intros _ j Hlo Hhi. lia.
  - rewrite compare_cells_step. split.
    + intros Hrun j Hlo Hhi.
      destruct (rs !! i) as [r|] eqn:Hr; [|discriminate Hrun].
      destruct (cs !! i) as [c|] eqn:Hc; [|discriminate Hrun].
      destruct (String.eqb _ _) eqn:Heq; [|discriminate Hrun].
      apply equalHex_bytes in Heq as ->.
      destruct (decide (j = i)) as [->|Hne]; [by exists c|].
      apply (proj1 (IH (S i)) Hrun); lia.
    + intros Hall.
      destruct (Hall i) as (c & -> & ->); [lia..|].
      rewrite (proj2 (equalHex_bytes c c) eq_refl).
      apply IH. intros j Hlo Hhi. apply Hall; lia.
Qed.

Lemma compare_cells_throws (rs cs : list ByteArray) (n i : nat) :
  i + n ≤ length rs → i + n ≤ length cs →
  result (Fusaka.compare_cells E rs cs i n) = Ok tt ∨
  result (Fusaka.compare_cells E rs cs i n) = Throw "Cell mismatch".
Proof.
  revert i. induction n as [|n IH]; intros i Hrs Hcs; [by left|].
  rewrite compare_cells_step.
  destruct (lookup_lt_is_Some_2 rs i) as [r ->]; [lia|].
  destruct (lookup_lt_is_Some_2 cs i) as [c ->]; [lia|].
  destruct (String.eqb _ _); [|by right].
  apply IH; lia.
Qed.

Lemma experiment8_result blob b cells proofs recovered rproofs :
  hexToBytes blob = Ok b →
  cKzg.computeCellsAndKzgProofs (K E) b = Ok (cells, proofs) →
  cKzg.recoverCellsAndKzgProofs (K E)
    (slice (seq 0 (cKzg.CELLS_PER_EXT_BLOB (K E))) 64 128)
    (slice cells 64 128) = Ok (recovered, rproofs) →
  result (Fusaka.experiment8 E blob) =
  result (Fusaka.compare_cells E recovered cells 0
            (cKzg.CELLS_PER_EXT_BLOB (K E))).
Proof.
  intros Hb Hcells Hrec. unfold Fusaka.experiment8.
  step Hb. step Hb. step Hcells.
  unfold Array_from. rewrite Array_from_indices.
  rewrite result_bind, result_lift. cbv beta iota.
  by step Hrec.
Qed.

(** C3. Experiment 8 hands the cells at indices 64 to 127 to
    [recoverCellsAndKzgProofs] and compares what comes back with the
    cells computed from the blob, index by index from 0 to
    [CELLS_PER_EXT_BLOB - 1].  It returns exactly when every one of these
    cells is present in both arrays and equal; when both arrays are long
    enough and some cell differs, it throws 'Cell mismatch'.  Experiment 8
    is the last one, so its outcome is the outcome of the script. *)
Theorem recovered_cells_checked blob b cells proofs recovered rproofs :
  hexToBytes blob = Ok b →
  cKzg.computeCellsAndKzgProofs (K E) b = Ok (cells, proofs) →
  cKzg.recoverCellsAndKzgProofs (K E)
    (slice (seq 0 (cKzg.CELLS_PER_EXT_BLOB (K E))) 64 128)
    (slice cells 64 128) = Ok (recovered, rproofs) →
  (result (Fusaka.experiment8 E blob) = Ok tt ↔
   ∀ i, i < cKzg.CELLS_PER_EXT_BLOB (K E) →
        ∃ c, recovered !! i = Some c ∧ cells !! i = Some c) ∧
  (cKzg.CELLS_PER_EXT_BLOB (K E) ≤ length recovered →
   cKzg.CELLS_PER_EXT_BLOB (K E) ≤ length cells →
   (∃ i, i < cKzg.CELLS_PER_EXT_BLOB (K E) ∧ recovered !! i ≠ cells !! i) →
   result (Fusaka.experiment8 E blob) = Throw "Cell mismatch") ∧
  (∀ privateKey tag send,
     Fusaka_before_experiment8 E privateKey tag send blob →
     result (Fusaka.experimentWithBlob E privateKey tag send)
     = result (Fusaka.experiment8 E blob)).
Proof.
  intros Hb Hcells Hrec.
  split; [|split;
           [|intros privateKey tag send; apply Fusaka_reaches_experiment8]];
    rewrite (experiment8_result _ _ _ _ _ _ Hb Hcells Hrec).
  - rewrite compare_cells_returns. split.
    + intros H i Hi. apply H; lia.
    + intros H j _ Hj. apply H. lia.
  - intros Hlr Hlc (i & Hi & Hne).
    destruct (compare_cells_throws recovered cells
                (cKzg.CELLS_PER_EXT_BLOB (K E)) 0) as [Hok|Hthrow];
      [lia | lia | | done].
    exfalso. apply Hne.
    destruct (proj1 (compare_cells_returns _ _ _ _) Hok i) as (c & -> & ->);
      [lia | lia | done].
Qed.
End Cells.

(** ** The concrete codec satisfies the library facts *)

Lemma ref_hex_of_byte_decodes (b : byte) (rest : string) :
  Ref.bytes_of_body (Ref.hex_of_byte b rest)
  = and_then (Ref.bytes_of_body rest) (λ bs, Ok (b :: bs)).
Proof. destruct b; reflexivity. Qed.

Lemma ref_hex_of_byte_lower (b : byte) (rest : string) :
  toLowerCase (Ref.hex_of_byte b rest) = Ref.hex_of_byte b (toLowerCase rest).
Proof. destruct b; reflexivity. Qed.

Lemma ref_hex_body_even (bs : ByteArray) :
  Nat.odd (String.length (Ref.hex_body bs)) = false.
Proof. induction bs as [|b bs IH]; [done|]. exact IH. Qed.

Lemma ref_hex_body_decodes (bs : ByteArray) :
  Ref.bytes_of_body (Ref.hex_body bs) = Ok bs.
Proof.
  induction bs as [|b bs IH]; [done|].
  change (Ref.hex_body (b :: bs)) with (Ref.hex_of_byte b (Ref.hex_body bs)).
  by rewrite ref_hex_of_byte_decodes, IH.
Qed.

Lemma ref_roundtrip (toBlobs : Hex → Res (list Hex)) :
  codec_roundtrip (Ref.vm_with toBlobs).
Proof.
  intros bs. cbn [viem.hexToBytes viem.bytesToHex Ref.vm_with].
  unfold Ref.hexToBytes, Ref.bytesToHex. cbn [String.append Ref.string_drop2].
  by rewrite ref_hex_body_even, ref_hex_body_decodes.
Qed.

Lemma ref_lowercase (toBlobs : Hex → Res (list Hex)) :
  codec_lowercase (Ref.vm_with toBlobs).
Proof.
  intros bs. cbn [viem.bytesToHex Ref.vm_with]. unfold Ref.bytesToHex.
  cbn [String.append toLowerCase]. do 2 f_equal.
  induction bs as [|b bs IH]; [done|].
  change (Ref.hex_body (b :: bs)) with (Ref.hex_of_byte b (Ref.hex_body bs)).
  by rewrite ref_hex_of_byte_lower, IH.
Qed.

(** ** The properties on the concrete instance *)

Lemma versioned_hash_check_witness :
  result (experiment2 (Ref.env Ref.key None) [x01] Ref.hello Ref.hello_vars)
  = Ok tt.
Proof.
  refine (proj1 (proj2 (proj2
    (versioned_hash_check (Ref.env Ref.key None) true Ref.account
       [Ref.hello] Ref.hello Ref.hello_vars
       (list_byte_of_string "hello world")
       (Ref.commit (list_byte_of_string "hello world"))
       "0xa56c6c6568"
       (Ref.hash (Ref.commit (list_byte_of_string "hello world")))
       "0x016c6c6568" _ _ _ _ _ _ _))) _);
    reflexivity.
Defined.

Lemma Index_before_wasm_ref :
  Index_before_wasm (Ref.env Ref.key None) "0x01" [x01] true
    Ref.wasm Ref.hello Ref.hello_vars.
Proof.
  exists Ref.account, [Ref.hello], [x68; x65; x6c; x6c; x6f; x20; x77; x6f; x72; x6c; x64].
  repeat split; vm_compute; reflexivity.
Qed.

Lemma backends_agree_or_throw_witness :
  result (experiment6_wasm Ref.wasm Ref.hello Ref.hello_vars) = Ok tt ∧
  result (Index.experimentWithBlob (Ref.env Ref.key None) "0x01" [x01] true)
  = Ok tt.
Proof.
  destruct (backends_agree_or_throw (Ref.env Ref.key None) true Ref.account
              [Ref.hello] Ref.hello Ref.hello_vars Ref.wasm
              "0x68656c6c" "0x6c6c6568")
    as (b & c & cb & p & Hb & Hc & Hcb & Hp & Hrun & Hscript);
    [reflexivity..|].
  rewrite (Hscript "0x01" [x01] Index_before_wasm_ref), Hrun.
  injection Hb as <-. injection Hc as <-. injection Hcb as <-. injection Hp as <-.
  split; reflexivity.
Defined.

Lemma recomputation_never_mismatches_witness :
  experiment6_ckzg (Ref.env Ref.key None) Ref.hello Ref.hello_vars =
  ([Called LibCKzg "blobToKzgCommitment"; Called LibCKzg "computeBlobKzgProof"],
   Ok tt) ∧
  experiment6_ckzg Ref.env_rejecting Ref.hello Ref.hello_vars =
  ([Called LibCKzg "blobToKzgCommitment"; Called LibCKzg "computeBlobKzgProof"],
   Ok tt).
Proof.
  destruct (recomputation_never_mismatches (Ref.env Ref.key None)
              Ref.env_rejecting true Ref.account [Ref.hello] Ref.hello
              Ref.hello_vars [x01] (ref_roundtrip _) eq_refl eq_refl)
    as (b & c & p & Hb & Hc & Hp & _ & _ & Hany & Hsame & _).
  split; [exact Hsame|].
  injection Hb as <-. injection Hc as <-. injection Hp as <-.
  by rewrite (Hany (list_byte_of_string "hell")
                (rev (list_byte_of_string "hell")) eq_refl eq_refl).
Defined.

Lemma Fusaka_before_experiment8_ref :
  Fusaka_before_experiment8 (Ref.env Ref.key None) "0x01" [x01] true
    (Ref.bytesToHex (list_byte_of_string Fusaka.rawBlob)).
Proof.
  pose (c := Ref.commit (list_byte_of_string Fusaka.rawBlob)).
  exists Ref.account, Ref.wasm,
    [Ref.bytesToHex (list_byte_of_string Fusaka.rawBlob)],
    {| versionedHash := Some (Ref.bytesToHex (<[0 := x01]> (Ref.hash c)));
       commitment := Ref.bytesToHex c;
       proof := Ref.bytesToHex (rev c) |},
    [x04].
  repeat split; vm_compute; reflexivity.
Qed.

Lemma recovered_cells_checked_witness :
  result (Fusaka.experiment8 (Ref.env Ref.key None) Ref.hello) = Ok tt ∧
  ∃ c,
    Ref.cells_of (list_byte_of_string "hello world") !! 100 = Some c ∧
    slice (Ref.cells_of (list_byte_of_string "hello world")) 64 128 !! 36
    = Some c.
Proof.
  assert (Hrun : result (Fusaka.experiment8 (Ref.env Ref.key None) Ref.hello)
                 = Ok tt) by (vm_compute; reflexivity).
  split; [exact Hrun|].
  pose (cells := Ref.cells_of (list_byte_of_string "hello world")).
  pose (half := slice cells 64 128).
  destruct (proj1 (proj1 (recovered_cells_checked (Ref.env Ref.key None)
              (ref_roundtrip _) (ref_lowercase _)
              Ref.hello (list_byte_of_string "hello world")
              cells
              (map (λ c, rev (Ref.commit (list_byte_of_string "hello world")) ++ c)
                   cells)
              (half ++ half) (half ++ half)
              eq_refl eq_refl eq_refl))
            Hrun 100) as (c & Hr & Hc).
  - vm_compute. lia.
  - exists c. split; [exact Hc|].
    rewrite <- Hr. reflexivity.
Defined.

(** * Further properties of the scripts *)

(** ** Which calls a run makes *)

Section OnlyCalls.
Context {A B : Type} (P : Event → bool).

Lemma only_ret (a : A) : only_calls P (ret a).
Proof. reflexivity. Qed.

Lemma only_throw (e : string) : only_calls P (@throw A e).
Proof. reflexivity. Qed.

Lemma only_lift (r : Res A) : only_calls P (lift r).
Proof. reflexivity. Qed.

Lemma only_call l fn (r : Res A) :
  P (Called l fn) = true → only_calls P (call l fn r).
Proof. intros H. unfold only_calls. simpl. by rewrite H. Qed.

Lemma only_verify l fn (r : Res bool) :
  P (Called l fn) = true → (∀ b, P (Verified l fn b) = true) →
  only_calls P (verify l fn r).
Proof.
  intros Hc Hv. unfold only_calls. destruct r as [b|e]; simpl.
  - by rewrite Hv.
  - by rewrite Hc.
Qed.

Lemma only_bind (m : M A) (f : A → M B) :
  only_calls P m → (∀ a, only_calls P (f a)) → only_calls P (bind m f).
Proof.
  unfold only_calls. intros Hm Hf. rewrite trace_bind, forallb_app, Hm.
  destruct (result m) as [a|e]; [apply Hf | reflexivity].
Qed.
End OnlyCalls.

Create HintDb calls.

Ltac only_step :=
  lazymatch goal with
  | |- only_calls _ ?m =>
      lazymatch m with
      | ret _ => apply only_ret
      | throw _ => apply only_throw
      | lift _ => apply only_lift
      | call _ _ _ => apply only_call; reflexivity
      | verify _ _ _ => apply only_verify; [reflexivity | intros []; reflexivity]
      | bind _ _ => apply only_bind; [| intros ?]
      | if ?b then _ else _ => destruct b
      | match ?x with _ => _ end => destruct x
      | _ => solve [auto with calls]
      end
  end.

Ltac calls := repeat only_step.

(** A call that was made is among the calls a run can make. *)
Lemma only_calls_In {A} (P : Event → bool) (m : M A) (e : Event) :
  only_calls P m → In e (trace m) → P e = true.
Proof.
  unfold only_calls. rewrite forallb_forall. auto.
Qed.

(** ** Experiment 1: the transaction on the network *)

(** What a returned experiment 1 with [sendTransaction] true went
    through, from the commitment to the comparison with the network. *)
Lemma experiment1_sent (E : Env) account blobs blob vars :
  result (experiment1 E true account blobs blob) = Ok vars →
  ∃ b c cb p request tx txHash hashes vh onchain,
    (viem.hexToBytes (V E) blob = Ok b ∧
     cKzg.blobToKzgCommitment (K E) b = Ok c ∧
     viem.hexToBytes (V E) (viem.bytesToHex (V E) c) = Ok cb ∧
     cKzg.computeBlobKzgProof (K E) b cb = Ok p ∧
     commitment vars = viem.bytesToHex (V E) c ∧
     proof vars = viem.bytesToHex (V E) p) ∧
    viem.prepareTransactionRequest (V E)
      (blob_transaction (V E) account blobs (cKzg.as_kzg (K E))
         (Some [ {| sc_blob := blob;
                    sc_commitment := viem.bytesToHex (V E) c;
                    sc_proof := viem.bytesToHex (V E) p |} ])) = Ok request ∧
    first_of (blobVersionedHashes request) = Ok (Some vh) ∧
    signTransaction account request = Ok tx ∧
    viem.sendRawTransaction (V E) tx = Ok txHash ∧
    viem.getTransaction (V E) txHash = Ok (Some (Some hashes)) ∧
    hashes !! 0 = Some onchain ∧
    versionedHash vars = Some vh ∧
    toLowerCase vh = toLowerCase onchain.
Proof.
  intros H. unfold experiment1 in H. returned H.
  match type of H with
  | result (if ?same then _ else _) = _ => destruct same eqn:Hsame
  end; [|discriminate H].
  injection H as <-. simpl.
  repeat match goal with
  | Hx : equalHex ?a ?b = Ok true |- _ =>
      destruct a as [vh|]; [|discriminate Hx];
      destruct b as [oc|]; [|discriminate Hx];
      rewrite equalHex_defined in Hx; injection Hx as Hx;
      apply String.eqb_eq in Hx
  end.
  repeat match goal with
  | Hx : match ?t with Some _ => _ | None => _ end = Ok (Some _) |- _ =>
      destruct t as [[hashes|]|] eqn:Ht; try discriminate Hx;
      injection Hx as Hx
  end.
  match goal with
  | Hb : viem.hexToBytes _ blob = Ok ?b,
    Hb' : viem.hexToBytes _ blob = Ok ?b',
    Hc : cKzg.blobToKzgCommitment _ ?b = Ok ?c,
    Hcb : viem.hexToBytes _ (viem.bytesToHex _ ?c) = Ok ?cb,
    Hp : cKzg.computeBlobKzgProof _ ?b' ?cb = Ok ?p,
    H0 : viem.prepareTransactionRequest _ _ = Ok ?rq,
    H1 : first_of (blobVersionedHashes ?rq) = Ok (Some ?h),
    H2 : signTransaction _ ?rq = Ok ?tx,
    H3 : viem.sendRawTransaction _ ?tx = Ok ?th,
    H4 : viem.getTransaction _ ?th = Ok (Some (Some ?hs)),
    H5 : ?hs !! 0 = Some ?oc |- _ =>
      assert (b' = b) as -> by congruence;
      exists b, c, cb, p, rq, tx, th, hs, h, oc
  end.
  by repeat split.
Qed.

(** X1. With [sendTransaction] false, experiment 1 neither broadcasts nor
    looks the transaction up.  With [sendTransaction] true, a run that
    returns has prepared the request from the blob with the commitment and
    the proof of c-kzg as its sidecar, signed that request, sent the
    signed transaction, fetched it by the returned hash and found its
    first versioned hash equal, letter case aside, to the first versioned
    hash of the prepared request, which is what [versionedHash] holds. *)
Theorem experiment1_onchain_check (E : Env) account blobs blob :
  only_calls (λ e, negb (is_broadcast e)
                   && negb (is_call LibRpc "getTransaction" e))
    (experiment1 E false account blobs blob) ∧
  (∀ vars, result (experiment1 E true account blobs blob) = Ok vars →
     ∃ b c cb p request tx txHash hashes vh onchain,
       (viem.hexToBytes (V E) blob = Ok b ∧
        cKzg.blobToKzgCommitment (K E) b = Ok c ∧
        viem.hexToBytes (V E) (viem.bytesToHex (V E) c) = Ok cb ∧
        cKzg.computeBlobKzgProof (K E) b cb = Ok p ∧
        commitment vars = viem.bytesToHex (V E) c ∧
        proof vars = viem.bytesToHex (V E) p) ∧
       viem.prepareTransactionRequest (V E)
         (blob_transaction (V E) account blobs (cKzg.as_kzg (K E))
            (Some [ {| sc_blob := blob;
                       sc_commitment := viem.bytesToHex (V E) c;
                       sc_proof := viem.bytesToHex (V E) p |} ])) = Ok request ∧
       first_of (blobVersionedHashes request) = Ok (Some vh) ∧
       signTransaction account request = Ok tx ∧
       viem.sendRawTransaction (V E) tx = Ok txHash ∧
       viem.getTransaction (V E) txHash = Ok (Some (Some hashes)) ∧
       hashes !! 0 = Some onchain ∧
       versionedHash vars = Some vh ∧
       toLowerCase vh = toLowerCase onchain).
Proof.
  split.
  - unfold experiment1. calls.
  - apply experiment1_sent.
Qed.

Lemma experiment1_onchain_check_witness :
  ∃ request vh onchain,
    viem.prepareTransactionRequest Ref.vm
      (blob_transaction Ref.vm Ref.account [Ref.hello] (cKzg.as_kzg Ref.native)
         (Some [ {| sc_blob := Ref.hello;
                    sc_commitment := commitment Ref.hello_vars;
                    sc_proof := proof Ref.hello_vars |} ])) = Ok request ∧
    first_of (blobVersionedHashes request) = Ok (Some vh) ∧
    versionedHash Ref.hello_vars = Some vh ∧
    toLowerCase vh = toLowerCase onchain.
Proof.
  destruct (proj2 (experiment1_onchain_check (Ref.env Ref.key None)
                     Ref.account [Ref.hello] Ref.hello)
              Ref.hello_vars eq_refl)
    as (b & c & cb & p & request & tx & txHash & hashes & vh & onchain
        & (_ & _ & _ & _ & Hc & Hp) & Hreq & Hfirst & _ & _ & _ & _ & Hvh & Heq).
  exists request, vh, onchain. rewrite Hc, Hp. by repeat split.
Defined.

(** ** The guard and the network *)

Lemma setup_trace (E : Env) privateKey data :
  only_calls (λ e, negb (is_kzg_computation e) && negb (is_network_call e))
    (setup E privateKey data).
Proof. unfold setup. calls. Qed.

Lemma setup_returned (E : Env) privateKey data account wasm blobs blob :
  result (setup E privateKey data) = Ok (account, wasm, blobs, blob) →
  viem.privateKeyToAccount (V E) privateKey = Ok account ∧
  loadKZG E = Ok wasm ∧
  viem.toBlobs (V E) (viem.stringToHex (V E) data) = Ok [blob] ∧
  blobs = [blob].
Proof.
  intros H. unfold setup in H. returned H.
  destruct v3 as [|blob' [|]]; try discriminate H.
  injection H as <- <- <- <-. by rewrite Hv3.
Qed.

Lemma require_PRIVATE_KEY_returned (E : Env) (k : Hex) :
  result (require_PRIVATE_KEY E) = Ok k → PRIVATE_KEY E = Some k ∧ k ≠ "".
Proof.
  unfold require_PRIVATE_KEY.
  destruct (PRIVATE_KEY E) as [[|c k']|]; try discriminate.
  by intros [= <-].
Qed.

(** X2. The experiment scripts touch the network, and compute or verify
    with KZG, only when [toBlobs] gave exactly one blob: a run with any
    such call in it has passed the guard.  Put the other way round, a
    run in which [toBlobs] gave another number of blobs contains no such
    call. *)
Theorem no_call_before_the_guard (E : Env) privateKey tag send (e : Event) :
  is_kzg_computation e || is_network_call e = true →
  (In e (trace (Index.experimentWithBlob E privateKey tag send)) →
   ∃ blob, viem.toBlobs (V E) (viem.stringToHex (V E) "hello world") = Ok [blob]) ∧
  (In e (trace (Fusaka.experimentWithBlob E privateKey tag send)) →
   ∃ blob, viem.toBlobs (V E) (viem.stringToHex (V E) Fusaka.rawBlob) = Ok [blob]).
Proof.
  intros He.
  assert (Hsetup : ∀ data, In e (trace (setup E privateKey data)) → False).
  { intros data Hin.
    pose proof (only_calls_In _ _ _ (setup_trace E privateKey data) Hin) as HP.
    apply andb_true_iff in HP as [H1 H2].
    apply orb_true_iff in He as [He|He]; rewrite He in *; discriminate. }
  split; intros Hin.
  - unfold Index.experimentWithBlob in Hin. rewrite trace_bind in Hin.
    apply in_app_iff in Hin as [Hin|Hin]; [by apply Hsetup in Hin|].
    destruct (result (setup E privateKey "hello world"))
      as [[[[account wasm] blobs] blob]|] eqn:Hres; [|done].
    apply setup_returned in Hres as (_ & _ & Hblobs & _). eauto.
  - unfold Fusaka.experimentWithBlob in Hin. rewrite trace_bind in Hin.
    apply in_app_iff in Hin as [Hin|Hin]; [by apply Hsetup in Hin|].
    destruct (result (setup E privateKey Fusaka.rawBlob))
      as [[[[account wasm] blobs] blob]|] eqn:Hres; [|done].
    apply setup_returned in Hres as (_ & _ & Hblobs & _). eauto.
Qed.

Lemma no_call_before_the_guard_witness :
  ∃ blob, viem.toBlobs (V (Ref.env Ref.key None))
            (viem.stringToHex (V (Ref.env Ref.key None)) "hello world")
          = Ok [blob].
Proof.
  apply (proj1 (no_call_before_the_guard (Ref.env Ref.key None) "0x01" [x01] true
                  (Called LibRpc "prepareTransactionRequest") eq_refl)).
  vm_compute. repeat first [left; reflexivity | right].
Defined.


(** ** The versioned hash computed by hand *)

Section VersionedHash.
Context (E : Env).

Abbreviation bytesToHex := (viem.bytesToHex (V E)).
Abbreviation hexToBytes := (viem.hexToBytes (V E)).

Lemma manual_versioned_hash_run (tag : ByteArray) (c : Hex + ByteArray)
    (h : Hex) (hb : ByteArray) :
  viem.sha256 (V E) c = Ok h →
  hexToBytes h = Ok hb →
  manual_versioned_hash E tag c
  = ([], Ok (bytesToHex (uint8_store hb 0 (tag !! 0)))).
Proof.
  intros Hh Hhb. unfold manual_versioned_hash.
  by rewrite Hh, bind_lift, Hhb, bind_lift.
Qed.

(** X3. The hash computed by hand is the SHA-256 output with byte 0
    replaced by the first byte of the tag ([0x01] for the tag
    [hexToBytes('0x01')], 0 for an empty tag): same length, every later
    byte unchanged, and an empty hash stays empty.  The computation calls
    neither KZG nor the network. *)
Theorem manual_versioned_hash_shape (tag : ByteArray) (c : Hex + ByteArray)
    (h : Hex) (hb : ByteArray) :
  viem.sha256 (V E) c = Ok h →
  hexToBytes h = Ok hb →
  ∃ out,
    manual_versioned_hash E tag c = ([], Ok (bytesToHex out)) ∧
    length out = length hb ∧
    (hb ≠ [] → out !! 0 = Some (default x00 (tag !! 0))) ∧
    (∀ i, 0 < i → out !! i = hb !! i) ∧
    (tag !! 0 = Some x01 → out = match hb with [] => [] | _ :: rest => x01 :: rest end).
Proof.
  intros Hh Hhb. exists (uint8_store hb 0 (tag !! 0)).
  split; [|split; [|split; [|split]]].
  - by apply (manual_versioned_hash_run tag c h hb).
  - apply length_insert.
  - intros Hne. apply list_lookup_insert_eq. destruct hb; [done | simpl; lia].
  - intros i Hi. apply list_lookup_insert_ne. lia.
  - intros Htag. unfold uint8_store. rewrite Htag. by destruct hb.
Qed.

(** X4. When the prepared request carried no versioned hash,
    [versionedHash] is undefined and experiment 2 ends in a [TypeError]
    (from [b.toLowerCase()]), not in 'versioned hash mismatch'. *)
Theorem undefined_versioned_hash (tag : ByteArray) (blob : Hex) (vars : Vars)
    (b c : ByteArray) (h : Hex) (hb : ByteArray) :
  versionedHash vars = None →
  hexToBytes blob = Ok b →
  cKzg.blobToKzgCommitment (K E) b = Ok c →
  viem.sha256 (V E) (inr c) = Ok h →
  hexToBytes h = Ok hb →
  experiment2 E tag blob vars
  = ([Called LibCKzg "blobToKzgCommitment"], Throw TypeError).
Proof.
  intros Hvh Hb Hc Hh Hhb. unfold experiment2.
  rewrite Hb, bind_lift, Hc, bind_call.
  rewrite (manual_versioned_hash_run tag (inr c) h hb Hh Hhb).
  by rewrite bind_returned, Hvh.
Qed.

(** X5. The second block of experiment 3, once its library calls have
    returned: a hash that differs from the prepared one gives 'Versioned
    hash mismatch' whatever the verification said; with equal hashes the
    block returns when [verifyBlobKzgProof] said true and throws 'Proof
    verification failed' when it said false. *)
Theorem experiment3_with_proof_outcome (blob : Hex) (vars : Vars)
    (h : Hex) (hb b cb pb : ByteArray) (vh : Hex) (isValid : bool) :
  versionedHash vars = Some vh →
  viem.sha256 (V E) (inl (commitment vars)) = Ok h →
  hexToBytes h = Ok hb →
  hexToBytes blob = Ok b →
  hexToBytes (commitment vars) = Ok cb →
  hexToBytes (proof vars) = Ok pb →
  cKzg.verifyBlobKzgProof (K E) b cb pb = Ok isValid →
  result (experiment3_with_proof E [x01] blob vars) =
  if String.eqb (toLowerCase (bytesToHex (<[0 := x01]> hb))) (toLowerCase vh)
  then if isValid then Ok tt else Throw "Proof verification failed"
  else Throw "Versioned hash mismatch".
Proof.
  intros Hvh Hh Hhb Hb Hcb Hpb Hok. unfold experiment3_with_proof.
  rewrite (manual_versioned_hash_result E _ _ _ _ _ Hh Hhb).
  step Hb. step Hcb. step Hpb.
  rewrite result_bind, Hok. cbn [verify result snd].
  rewrite Hvh, result_bind, result_lift, equalHex_defined. cbv beta iota.
  cbn [uint8_store lookup list_lookup default].
  destruct (String.eqb _ _); [|done]. by destruct isValid.
Qed.
End VersionedHash.


(** ** Cells: what the library is asked *)

Lemma Array_from_constant {A} (x : A) (i n : nat) :
  Array_from_at (λ _, Ok x) i n = Ok (replicate n x).
Proof.
  revert i. induction n as [|n IH]; intros i; simpl; [done|]. by rewrite IH.
Qed.

Lemma Array_from_throws {A} (e : string) (i n : nat) :
  0 < n → Array_from_at (λ _, @Throw A e) i n = Throw e.
Proof. destruct n; [lia | done]. Qed.

Lemma slice_lookup {A} (xs : list A) (from to i : nat) :
  i < to - from → slice xs from to !! i = xs !! (from + i).
Proof.
  intros Hi. unfold slice. by rewrite lookup_take_lt, lookup_drop.
Qed.

Lemma slice_length {A} (xs : list A) (from to : nat) :
  length (slice xs from to) = (to - from) `min` (length xs - from).
Proof. unfold slice. by rewrite length_take, length_drop. Qed.

Lemma slice_indices (n from to : nat) :
  slice (seq 0 n) from to = seq from ((to - from) `min` (n - from)).
Proof.
  unfold slice. rewrite drop_seq, take_seq. reflexivity.
Qed.

Section CellCalls.
Context (E : Env).

Abbreviation hexToBytes := (viem.hexToBytes (V E)).
Abbreviation CELLS := (cKzg.CELLS_PER_EXT_BLOB (K E)).

(** X6. Experiment 7 asks for one batch verification over every cell: the
    commitment of experiment 1, decoded, is repeated [CELLS_PER_EXT_BLOB]
    times and paired with the indices 0, 1, ... in order; the block
    returns when the library says true and throws 'Proof verification
    failed' when it says false.  A commitment that does not decode ends the
    block before the verification, unless there are no cells at all. *)
Theorem experiment7_batch (blob : Hex) (vars : Vars) (b : ByteArray)
    (cells proofs : list ByteArray) :
  hexToBytes blob = Ok b →
  cKzg.computeCellsAndKzgProofs (K E) b = Ok (cells, proofs) →
  (∀ cb, hexToBytes (commitment vars) = Ok cb →
     result (Fusaka.experiment7 E blob vars) =
     match cKzg.verifyCellKzgProofBatch (K E)
             (replicate CELLS cb) (seq 0 CELLS) cells proofs with
     | Ok true => Ok tt
     | Ok false => Throw "Proof verification failed"
     | Throw e => Throw e
     end) ∧
  (∀ e, hexToBytes (commitment vars) = Throw e → 0 < CELLS →
     Fusaka.experiment7 E blob vars
     = ([Called LibCKzg "computeCellsAndKzgProofs"], Throw e)).
Proof.
  intros Hb Hcells. split.
  - intros cb Hcb. unfold Fusaka.experiment7.
    step Hb. step Hcells. unfold Array_from.
    rewrite Array_from_indices, Hcb, Array_from_constant.
    rewrite result_bind, result_lift. cbv beta iota.
    rewrite result_bind, result_lift. cbv beta iota.
    rewrite result_bind.
    destruct (cKzg.verifyCellKzgProofBatch _ _ _ _ _) as [[]|e]; reflexivity.
  - intros e He HN. unfold Fusaka.experiment7.
    rewrite Hb, bind_lift, Hcells, bind_call. unfold Array_from.
    rewrite Array_from_indices, He, Array_from_throws by done.
    cbv beta iota. reflexivity.
Qed.

(** X7. Experiment 8 hands the recovery the second half of a 128-cell
    extended blob: the indices 64 to 127 and, in the same order, the cells
    at these indices, 64 of each.  With a library whose
    [CELLS_PER_EXT_BLOB] is 64 or less it hands over no index at all. *)
Theorem recovery_input (blob : Hex) (b : ByteArray)
    (cells proofs : list ByteArray) :
  hexToBytes blob = Ok b →
  cKzg.computeCellsAndKzgProofs (K E) b = Ok (cells, proofs) →
  result (Fusaka.experiment8 E blob) =
    match cKzg.recoverCellsAndKzgProofs (K E)
            (seq 64 (64 `min` (CELLS - 64))) (slice cells 64 128) with
    | Ok (recovered, _) =>
        result (Fusaka.compare_cells E recovered cells 0 CELLS)
    | Throw e => Throw e
    end ∧
  (∀ i, i < 64 → slice cells 64 128 !! i = cells !! (64 + i)) ∧
  (128 ≤ CELLS → 128 ≤ length cells →
   seq 64 (64 `min` (CELLS - 64)) = seq 64 64 ∧
   length (slice cells 64 128) = 64) ∧
  (CELLS ≤ 64 → seq 64 (64 `min` (CELLS - 64)) = []).
Proof.
  intros Hb Hcells. split; [|split; [|split]].
  - unfold Fusaka.experiment8. step Hb. step Hb. step Hcells.
    unfold Array_from. rewrite Array_from_indices.
    rewrite result_bind, result_lift. cbv beta iota.
    rewrite slice_indices. change (128 - 64) with 64.
    rewrite result_bind, result_call.
    by destruct (cKzg.recoverCellsAndKzgProofs _ _ _) as [[]|].
  - intros i Hi. apply slice_lookup. lia.
  - intros HN Hlen. rewrite slice_length.
    replace (64 `min` (CELLS - 64)) with 64 by lia. split; [done | lia].
  - intros HN. by replace (64 `min` (CELLS - 64)) with 0 by lia.
Qed.

(** X8. The evaluation point of experiments 4 and 5.  In index.ts it is
    the first 32 bytes of the blob (all of it when the blob is shorter).
    In the second script it is entry 3 of the roots-of-unity table with
    its bytes reversed, cut to 32 bytes: for a 32-byte entry exactly the
    reversed entry, so that reversing it again gives the entry back. *)
Theorem evaluation_point (blob : Hex) (b : ByteArray) (root : string)
    (rb : ByteArray) :
  hexToBytes blob = Ok b →
  rootsOfUnity E !! 3 = Some root →
  hexToBytes (String.append "0x" root) = Ok rb →
  Index.zBytes E blob = Ok (take 32 b) ∧
  (length b ≤ 32 → Index.zBytes E blob = Ok b) ∧
  Fusaka.zBytes E = Ok (take 32 (rev rb)) ∧
  (length rb = 32 →
   ∃ z, Fusaka.zBytes E = Ok z ∧ length z = 32 ∧ rev z = rb) ∧
  (32 ≤ length rb →
   ∃ z, Fusaka.zBytes E = Ok z ∧ length z = 32 ∧
        rev z = drop (length rb - 32) rb).
Proof.
  intros Hb Hroot Hrb.
  assert (HI : Index.zBytes E blob = Ok (take 32 b)).
  { unfold Index.zBytes, slice. by rewrite Hb. }
  assert (HF : Fusaka.zBytes E = Ok (take 32 (rev rb))).
  { unfold Fusaka.zBytes, slice. cbv zeta. rewrite Hroot. simpl default.
    by rewrite Hrb. }
  split; [done|]. split; [|split; [done|split]].
  - intros Hlen. by rewrite HI, take_ge.
  - intros Hlen. exists (rev rb). rewrite HF.
    rewrite take_ge by (rewrite length_rev; lia).
    by rewrite length_rev, rev_involutive.
  - intros Hlen. exists (take 32 (rev rb)). split; [done|]. split.
    + rewrite length_take, length_rev. lia.
    + by rewrite firstn_rev, rev_involutive.
Qed.
End CellCalls.


(** ** What a completed run has checked *)

Section Completed.
Context (E : Env).

Abbreviation bytesToHex := (viem.bytesToHex (V E)).
Abbreviation hexToBytes := (viem.hexToBytes (V E)).

Lemma manual_versioned_hash_returned tag c mine :
  result (manual_versioned_hash E tag c) = Ok mine →
  ∃ h hb, viem.sha256 (V E) c = Ok h ∧ hexToBytes h = Ok hb ∧
          mine = bytesToHex (uint8_store hb 0 (tag !! 0)).
Proof.
  intros H. unfold manual_versioned_hash in H. returned H.
  injection H as <-. eauto.
Qed.

Lemma equalHex_true (a : Hex) (b : option Hex) :
  equalHex (Some a) b = Ok true →
  ∃ b', b = Some b' ∧ toLowerCase a = toLowerCase b'.
Proof.
  destruct b as [b'|]; [|discriminate].
  rewrite equalHex_defined. intros [= H%String.eqb_eq]. eauto.
Qed.

Lemma experiment2_returned tag blob vars :
  result (experiment2 E tag blob vars) = Ok tt →
  ∃ b c h hb vh,
    hexToBytes blob = Ok b ∧
    cKzg.blobToKzgCommitment (K E) b = Ok c ∧
    viem.sha256 (V E) (inr c) = Ok h ∧
    hexToBytes h = Ok hb ∧
    versionedHash vars = Some vh ∧
    toLowerCase (bytesToHex (uint8_store hb 0 (tag !! 0))) = toLowerCase vh.
Proof.
  intros H. unfold experiment2 in H.
  apply bind_Ok_inv in H as (b & Hb%lift_Ok_inv & H).
  apply bind_Ok_inv in H as (c & Hc%call_Ok_inv & H).
  apply bind_Ok_inv in H as (mine & Hmine & H).
  apply bind_Ok_inv in H as (same & Hsame%lift_Ok_inv & H).
  destruct same; [|discriminate H].
  apply manual_versioned_hash_returned in Hmine as (h & hb & Hh & Hhb & ->).
  apply equalHex_true in Hsame as (vh & Hvh & Heq).
  exists b, c, h, hb, vh. by repeat split.
Qed.

Lemma experiment3_returned tag blob vars :
  result (experiment3 E tag blob vars) = Ok tt →
  ∃ b cb pb,
    hexToBytes blob = Ok b ∧
    hexToBytes (commitment vars) = Ok cb ∧
    hexToBytes (proof vars) = Ok pb ∧
    cKzg.verifyBlobKzgProof (K E) b cb pb = Ok true.
Proof.
  intros H. unfold experiment3 in H.
  apply bind_Ok_inv in H as (? & _ & H).
  unfold experiment3_with_proof in H.
  apply bind_Ok_inv in H as (mine & _ & H).
  apply bind_Ok_inv in H as (b & Hb%lift_Ok_inv & H).
  apply bind_Ok_inv in H as (cb & Hcb%lift_Ok_inv & H).
  apply bind_Ok_inv in H as (pb & Hpb%lift_Ok_inv & H).
  apply bind_Ok_inv in H as (ok & Hok%verify_Ok_inv & H).
  apply bind_Ok_inv in H as (same & _ & H).
  destruct same; [|discriminate H]. destruct ok; [|discriminate H].
  exists b, cb, pb. by repeat split.
Qed.

Lemma experiment6_wasm_returned wasm blob vars :
  result (experiment6_wasm wasm blob vars) = Ok tt →
  ∃ cw pw,
    wasmKzg.blobToKZGCommitment wasm blob = Ok cw ∧
    wasmKzg.computeBlobKZGProof wasm blob cw = Ok pw ∧
    toLowerCase cw = toLowerCase (commitment vars) ∧
    toLowerCase pw = toLowerCase (proof vars).
Proof.
  intros H. unfold experiment6_wasm in H.
  apply bind_Ok_inv in H as (cw & Hcw%call_Ok_inv & H).
  apply bind_Ok_inv in H as (pw & Hpw%call_Ok_inv & H).
  apply bind_Ok_inv in H as (same & Hsame%lift_Ok_inv & H).
  destruct same; [|discriminate H].
  apply bind_Ok_inv in H as (same & Hsame'%lift_Ok_inv & H).
  destruct same; [|discriminate H].
  apply equalHex_true in Hsame as (? & [= <-] & Hc).
  apply equalHex_true in Hsame' as (? & [= <-] & Hp).
  exists cw, pw. by repeat split.
Qed.

Lemma experiment7_returned blob vars :
  result (Fusaka.experiment7 E blob vars) = Ok tt →
  ∃ b cells proofs commitments,
    hexToBytes blob = Ok b ∧
    cKzg.computeCellsAndKzgProofs (K E) b = Ok (cells, proofs) ∧
    Array_from (cKzg.CELLS_PER_EXT_BLOB (K E))
      (λ _, hexToBytes (commitment vars)) = Ok commitments ∧
    cKzg.verifyCellKzgProofBatch (K E) commitments
      (seq 0 (cKzg.CELLS_PER_EXT_BLOB (K E))) cells proofs = Ok true.
Proof.
  intros H. unfold Fusaka.experiment7 in H.
  apply bind_Ok_inv in H as (b & Hb%lift_Ok_inv & H).
  apply bind_Ok_inv in H as ([cells proofs] & Hcells%call_Ok_inv & H).
  apply bind_Ok_inv in H as (indices & Hidx%lift_Ok_inv & H).
  apply bind_Ok_inv in H as (dup & Hdup%lift_Ok_inv & H).
  apply bind_Ok_inv in H as (ok & Hok%verify_Ok_inv & H).
  destruct ok; [|discriminate H].
  unfold Array_from in Hidx. rewrite Array_from_indices in Hidx.
  injection Hidx as <-.
  exists b, cells, proofs, dup. by repeat split.
Qed.

Lemma experiment8_returned blob :
  codec_roundtrip (V E) → codec_lowercase (V E) →
  result (Fusaka.experiment8 E blob) = Ok tt →
  ∃ b cells proofs recovered rproofs,
    hexToBytes blob = Ok b ∧
    cKzg.computeCellsAndKzgProofs (K E) b = Ok (cells, proofs) ∧
    cKzg.recoverCellsAndKzgProofs (K E)
      (slice (seq 0 (cKzg.CELLS_PER_EXT_BLOB (K E))) 64 128)
      (slice cells 64 128) = Ok (recovered, rproofs) ∧
    ∀ i, i < cKzg.CELLS_PER_EXT_BLOB (K E) →
         ∃ c, recovered !! i = Some c ∧ cells !! i = Some c.
Proof.
  intros Hrt Hlc H.
  assert (H' := H). unfold Fusaka.experiment8 in H'.
  apply bind_Ok_inv in H' as (_ & _ & H').
  apply bind_Ok_inv in H' as (b & Hb%lift_Ok_inv & H').
  apply bind_Ok_inv in H' as ([cells proofs] & Hcells%call_Ok_inv & H').
  apply bind_Ok_inv in H' as (indices & Hidx%lift_Ok_inv & H').
  apply bind_Ok_inv in H' as ([recovered rproofs] & Hrec%call_Ok_inv & H').
  unfold Array_from in Hidx. rewrite Array_from_indices in Hidx.
  injection Hidx as <-.
  exists b, cells, proofs, recovered, rproofs.
  split; [done|]. split; [done|]. split; [done|].
  intros i Hi.
  apply (proj1 (compare_cells_returns E Hrt Hlc recovered cells _ 0) H'); lia.
Qed.

(** X9. A run of index.ts that reaches its end has established, for the
    one blob of the data: the request was prepared from the blob with the
    commitment and the proof of c-kzg as its sidecar, and the first
    versioned hash of this prepared request equals the one of the
    transaction found on the network; the hash computed by hand from the
    c-kzg commitment equals it too; [verifyBlobKzgProof] accepted the
    blob proof against the commitment; and kzg-wasm computed the same
    commitment and the same proof as c-kzg (hex strings compared letter
    case aside). *)
Theorem index_run_certifies :
  result (Index.script E) = Ok tt →
  ∃ privateKey tag account wasm blob b c cb p vh,
    (PRIVATE_KEY E = Some privateKey ∧ privateKey ≠ "" ∧
     VERSIONED_HASH_VERSION_KZG E = Ok tag ∧
     viem.privateKeyToAccount (V E) privateKey = Ok account ∧
     loadKZG E = Ok wasm ∧
     viem.toBlobs (V E) (viem.stringToHex (V E) "hello world") = Ok [blob]) ∧
    (hexToBytes blob = Ok b ∧
     cKzg.blobToKzgCommitment (K E) b = Ok c ∧
     hexToBytes (bytesToHex c) = Ok cb ∧
     cKzg.computeBlobKzgProof (K E) b cb = Ok p) ∧
    (∃ request tx txHash hashes onchain,
       viem.prepareTransactionRequest (V E)
         (blob_transaction (V E) account [blob] (cKzg.as_kzg (K E))
            (Some [ {| sc_blob := blob; sc_commitment := bytesToHex c;
                       sc_proof := bytesToHex p |} ])) = Ok request ∧
       first_of (blobVersionedHashes request) = Ok (Some vh) ∧
       signTransaction account request = Ok tx ∧
       viem.sendRawTransaction (V E) tx = Ok txHash ∧
       viem.getTransaction (V E) txHash = Ok (Some (Some hashes)) ∧
       hashes !! 0 = Some onchain ∧
       toLowerCase vh = toLowerCase onchain) ∧
    (∃ h hb,
       viem.sha256 (V E) (inr c) = Ok h ∧ hexToBytes h = Ok hb ∧
       toLowerCase (bytesToHex (uint8_store hb 0 (tag !! 0))) = toLowerCase vh) ∧
    (∃ pb,
       hexToBytes (bytesToHex p) = Ok pb ∧
       cKzg.verifyBlobKzgProof (K E) b cb pb = Ok true) ∧
    (∃ cw pw,
       wasmKzg.blobToKZGCommitment wasm blob = Ok cw ∧
       wasmKzg.computeBlobKZGProof wasm blob cw = Ok pw ∧
       toLowerCase cw = toLowerCase (bytesToHex c) ∧
       toLowerCase pw = toLowerCase (bytesToHex p)).
Proof.
  intros H. unfold Index.script in H.
  apply bind_Ok_inv in H as (privateKey & [Hkey Hset]%require_PRIVATE_KEY_returned & H).
  apply bind_Ok_inv in H as (tag & Htag%lift_Ok_inv & H).
  unfold Index.experimentWithBlob in H.
  apply bind_Ok_inv in H as ([[[account wasm] blobs] blob] & Hsetup & H).
  apply setup_returned in Hsetup as (Hacc & Hwasm & Hblobs & ->).
  apply bind_Ok_inv in H as (vars & H1 & H).
  apply bind_Ok_inv in H as ([] & H2 & H).
  apply bind_Ok_inv in H as ([] & H3 & H).
  apply bind_Ok_inv in H as (? & _ & H).
  apply bind_Ok_inv in H as (? & _ & H).
  apply bind_Ok_inv in H as (? & _ & H).
  apply bind_Ok_inv in H as (? & _ & H).
  unfold experiment6 in H. apply bind_Ok_inv in H as (? & _ & H6).
  apply experiment1_sent in H1
    as (b & c & cb & p & request & tx & txHash & hashes & vh & onchain
        & (Hb & Hc & Hcb & Hp & Hcommit & Hproof)
        & Hreq & Hfirst & Hsign & Hsend & Hget & Hon & Hvh & Heq).
  apply experiment2_returned in H2
    as (b2 & c2 & h & hb & vh2 & Hb2 & Hc2 & Hh & Hhb & Hvh2 & Hmine).
  apply experiment3_returned in H3 as (b3 & cb3 & pb & Hb3 & Hcb3 & Hpb & Hok).
  apply experiment6_wasm_returned in H6 as (cw & pw & Hcw & Hpw & Hceq & Hpeq).
  assert (b2 = b) as -> by congruence.
  assert (c2 = c) as -> by congruence.
  assert (vh2 = vh) as -> by congruence.
  assert (b3 = b) as -> by congruence.
  rewrite Hcommit in *. rewrite Hproof in *.
  assert (cb3 = cb) as -> by congruence.
  exists privateKey, tag, account, wasm, blob, b, c, cb, p, vh.
  split; [by repeat split|]. split; [by repeat split|].
  split; [exists request, tx, txHash, hashes, onchain; by repeat split|].
  split; [exists h, hb; by repeat split|].
  split; [exists pb; by repeat split|].
  exists cw, pw. by repeat split.
Qed.

(** X10. A run of the second experiment script that reaches its end has
    in addition seen [verifyCellKzgProofBatch] accept all cell proofs
    against the commitment and, given that the codec round-trips and
    prints lower case, every one of the [CELLS_PER_EXT_BLOB] cells
    recovered from the second half equal to the cell computed from the
    blob. *)
Theorem fusaka_run_certifies :
  codec_roundtrip (V E) → codec_lowercase (V E) →
  result (Fusaka.script E) = Ok tt →
  ∃ blob b cells proofs c commitments recovered rproofs,
    viem.toBlobs (V E) (viem.stringToHex (V E) Fusaka.rawBlob) = Ok [blob] ∧
    hexToBytes blob = Ok b ∧
    cKzg.blobToKzgCommitment (K E) b = Ok c ∧
    cKzg.computeCellsAndKzgProofs (K E) b = Ok (cells, proofs) ∧
    Array_from (cKzg.CELLS_PER_EXT_BLOB (K E))
      (λ _, hexToBytes (bytesToHex c)) = Ok commitments ∧
    cKzg.verifyCellKzgProofBatch (K E) commitments
      (seq 0 (cKzg.CELLS_PER_EXT_BLOB (K E))) cells proofs = Ok true ∧
    cKzg.recoverCellsAndKzgProofs (K E)
      (slice (seq 0 (cKzg.CELLS_PER_EXT_BLOB (K E))) 64 128)
      (slice cells 64 128) = Ok (recovered, rproofs) ∧
    ∀ i, i < cKzg.CELLS_PER_EXT_BLOB (K E) →
         ∃ cell, recovered !! i = Some cell ∧ cells !! i = Some cell.
Proof.
  intros Hrt Hlc H. unfold Fusaka.script in H.
  apply bind_Ok_inv in H as (privateKey & _ & H).
  apply bind_Ok_inv in H as (tag & _ & H).
  unfold Fusaka.experimentWithBlob in H.
  apply bind_Ok_inv in H as ([[[account wasm] blobs] blob] & Hsetup & H).
  apply setup_returned in Hsetup as (_ & _ & Hblobs & ->).
  apply bind_Ok_inv in H as (vars & H1 & H).
  do 7 (apply bind_Ok_inv in H as (? & _ & H)).
  apply bind_Ok_inv in H as ([] & H7 & H8).
  apply experiment1_returned in H1
    as (b & c & cb & p & _ & Hb & Hc & _ & _ & Hcommit & _).
  apply experiment7_returned in H7
    as (b7 & cells & proofs & commitments & Hb7 & Hcells & Hdup & Hok).
  apply (experiment8_returned _ Hrt Hlc) in H8
    as (b8 & cells8 & proofs8 & recovered & rproofs & Hb8 & Hcells8 & Hrec & Hall).
  assert (b7 = b) as -> by congruence.
  assert (b8 = b) as -> by congruence.
  assert (cells8 = cells ∧ proofs8 = proofs) as [-> ->].
  { rewrite Hcells in Hcells8. by injection Hcells8. }
  rewrite Hcommit in Hdup.
  exists blob, b, cells, proofs, c, commitments, recovered, rproofs.
  by repeat split.
Qed.
End Completed.


(** ** The ethers-based script: calls *)

Lemma eip_is_false (E : Env) (s : string) :
  EthersTx.eip_is E s = false ↔ argv2 E ≠ Some s.
Proof.
  rewrite <- eip_is_spec. by destruct (EthersTx.eip_is E s).
Qed.

Lemma build_transaction_calls (E : Env) :
  only_calls (λ e, negb (is_broadcast e)) (EthersTx.build_transaction E) ∧
  (argv2 E = Some "4844" →
   only_calls (λ e, negb (is_call LibWasmKzg "computeCellsAndKZGProofs" e))
     (EthersTx.build_transaction E)) ∧
  (argv2 E ≠ Some "4844" →
   only_calls (λ e, negb (is_call LibWasmKzg "computeBlobKZGProof" e))
     (EthersTx.build_transaction E)).
Proof.
  split; [|split].
  - unfold EthersTx.build_transaction. calls.
  - intros Hmode%eip_is_spec. unfold EthersTx.build_transaction.
    rewrite Hmode. calls.
  - intros Hmode%eip_is_false. unfold EthersTx.build_transaction.
    rewrite Hmode. calls.
Qed.

(** X11. [main] computes one kind of proof only: in mode 4844 it never
    calls [computeCellsAndKZGProofs], in any other mode it never calls
    [computeBlobKZGProof].  And it sends nothing it has not built and
    signed: a run in which [eth_sendRawTransaction] was called has
    assembled the transaction and got it signed by the wallet. *)
Theorem ethers_main_calls (E : Env) :
  (argv2 E = Some "4844" →
   ¬ In (Called LibWasmKzg "computeCellsAndKZGProofs") (trace (EthersTx.main E))) ∧
  (argv2 E ≠ Some "4844" →
   ¬ In (Called LibWasmKzg "computeBlobKZGProof") (trace (EthersTx.main E))) ∧
  (In (Called LibRpc "send") (trace (EthersTx.main E)) →
   ∃ wallet tx rawTx,
     result (EthersTx.build_transaction E) = Ok (wallet, tx) ∧
     ethers.wallet_signTransaction (Eth E) wallet tx = Ok rawTx).
Proof.
  destruct (build_transaction_calls E) as (Hsend & Hblob & Hcells).
  assert (Hmain : ∀ P : Event → bool,
            P (Called LibRpc "send") = true →
            only_calls P (EthersTx.build_transaction E) →
            only_calls P (EthersTx.main E)).
  { intros P HP Hbuild. unfold EthersTx.main.
    apply only_bind; [done|]. intros [wallet tx].
    apply only_bind; [apply only_lift|]. intros rawTx.
    apply only_bind; [by apply only_call|]. intros res. apply only_ret. }
  split; [|split].
  - intros Hmode Hin.
    by pose proof (only_calls_In _ _ _ (Hmain _ eq_refl (Hblob Hmode)) Hin).
  - intros Hmode Hin.
    by pose proof (only_calls_In _ _ _ (Hmain _ eq_refl (Hcells Hmode)) Hin).
  - unfold EthersTx.main. rewrite trace_bind, in_app_iff. intros [Hin|Hin].
    { by pose proof (only_calls_In _ _ _ Hsend Hin). }
    destruct (result (EthersTx.build_transaction E)) as [[wallet tx]|] eqn:Hb;
      [|done].
    exists wallet, tx.
    destruct (ethers.wallet_signTransaction (Eth E) wallet tx) as [rawTx|e];
      [eauto|].
    by destruct Hin.
Qed.

(** ** The adapters for kzg-wasm *)

(** X12. The adapters turn kzg-wasm into the [kzg] object viem expects:
    when kzg-wasm computes on hex strings what c-kzg computes on bytes (and
    the codec round-trips), the adapted object gives the same commitment
    and the same proof as c-kzg itself; an error of kzg-wasm comes out of
    the adapter unchanged. *)
Theorem adapted_kzg_agrees (Vm : viem.lib) (native : cKzg.lib)
    (wasm : wasmKzg.lib) :
  (codec_roundtrip Vm → hex_view Vm native wasm →
   ∀ b c,
     kzg_blobToKzgCommitment (adaptedKzg Vm wasm) b
     = cKzg.blobToKzgCommitment native b ∧
     kzg_computeBlobKzgProof (adaptedKzg Vm wasm) b c
     = cKzg.computeBlobKzgProof native b c) ∧
  (∀ b e, wasmKzg.blobToKZGCommitment wasm (viem.bytesToHex Vm b) = Throw e →
          kzg_blobToKzgCommitment (adaptedKzg Vm wasm) b = Throw e) ∧
  (∀ b c e, wasmKzg.computeBlobKZGProof wasm (viem.bytesToHex Vm b)
              (viem.bytesToHex Vm c) = Throw e →
            kzg_computeBlobKzgProof (adaptedKzg Vm wasm) b c = Throw e).
Proof.
  split; [|split].
  - intros Hrt [Hc Hp] b c. simpl. rewrite Hc, Hp. split.
    + destruct (cKzg.blobToKzgCommitment native b); simpl; [apply Hrt | done].
    + destruct (cKzg.computeBlobKzgProof native b c); simpl; [apply Hrt | done].
  - intros b e He. simpl. by rewrite He.
  - intros b c e He. simpl. by rewrite He.
Qed.

Lemma ref_hex_view : hex_view Ref.vm Ref.native Ref.wasm.
Proof.
  assert (Hrt : ∀ b, Ref.hexToBytes (Ref.bytesToHex b) = Ok b)
    by exact (ref_roundtrip (λ h, Ok [h])).
  split; intros;
    cbn [wasmKzg.blobToKZGCommitment wasmKzg.computeBlobKZGProof Ref.wasm
         viem.bytesToHex Ref.vm Ref.vm_with
         cKzg.blobToKzgCommitment cKzg.computeBlobKzgProof
         Ref.native Ref.native_with];
    unfold Ref.through_bytes; rewrite !Hrt; cbn [and_then];
    rewrite ?Hrt; reflexivity.
Qed.

Lemma adapted_kzg_agrees_witness :
  kzg_blobToKzgCommitment (adaptedKzg Ref.vm Ref.wasm)
    (list_byte_of_string "hello world")
  = Ok (list_byte_of_string "hell").
Proof.
  rewrite (proj1 (proj1 (adapted_kzg_agrees Ref.vm Ref.native Ref.wasm)
                    (ref_roundtrip _) ref_hex_view
                    (list_byte_of_string "hello world") [])).
  reflexivity.
Defined.

(** ** The functions of the walkthrough script *)

Lemma commitments_of_calls (P : Event → bool) kzg blobs :
  P (Called LibWasmKzg "blobToKZGCommitment") = true →
  only_calls P (ViemWalkthrough.commitments_of kzg blobs).
Proof.
  intros HP. induction blobs as [|blob blobs IH];
    cbn [ViemWalkthrough.commitments_of]; [apply only_ret|].
  apply only_bind; [by apply only_call|]. intros c.
  apply only_bind; [done|]. intros cs. apply only_ret.
Qed.

(** X13. Of the functions the walkthrough script defines, [signRawTransaction]
    puts a transaction on the network only after the request was prepared
    and signed, [KZGProofVerification] and [makeBlobVersionedHashes] never
    put one there, and [KZGProofVerification] makes no network call at
    all and returns whatever the verification said. *)
Theorem walkthrough_broadcasts (E : Env) (PRIVATE_KEY : Hex) :
  (In (Called LibRpc "sendRawTransaction")
      (trace (ViemWalkthrough.signRawTransaction E PRIVATE_KEY)) →
   ∃ account kzg blobs request tx,
     viem.privateKeyToAccount (V E) PRIVATE_KEY = Ok account ∧
     loadKZG E = Ok kzg ∧
     viem.prepareTransactionRequest (V E)
       (blob_transaction (V E) account blobs (adaptedKzg (V E) kzg) None)
     = Ok request ∧
     signTransaction account request = Ok tx) ∧
  only_calls (λ e, negb (is_broadcast e))
    (ViemWalkthrough.makeBlobVersionedHashes E PRIVATE_KEY) ∧
  only_calls (λ e, negb (is_network_call e)) (ViemKzgProof.KZGProofVerification E) ∧
  (∀ kzg blob blobs c p ok,
     loadKZG E = Ok kzg →
     viem.toBlobs (V E) (viem.stringToHex (V E) "hello world") = Ok (blob :: blobs) →
     wasmKzg.blobToKZGCommitment kzg blob = Ok c →
     wasmKzg.computeBlobKZGProof kzg blob c = Ok p →
     wasmKzg.verifyBlobKZGProof kzg blob c p = Ok ok →
     result (ViemKzgProof.KZGProofVerification E) = Ok tt).
Proof.
  split; [|split; [|split]].
  - unfold ViemWalkthrough.signRawTransaction.
    destruct (viem.privateKeyToAccount (V E) PRIVATE_KEY) as [account|];
      [|by intros []].
    rewrite bind_lift.
    destruct (loadKZG E) as [kzg|]; [|by intros [|[]]].
    rewrite bind_call.
    destruct (viem.toBlobs _ _) as [blobs|]; [|by intros [|[]]].
    rewrite bind_lift.
    destruct (viem.prepareTransactionRequest _ _) as [request|] eqn:Hreq;
      [|by intros [|[|[]]]].
    rewrite bind_call.
    destruct (signTransaction account request) as [tx|] eqn:Htx;
      [|by intros [|[|[]]]].
    intros _. by exists account, kzg, blobs, request, tx.
  - unfold ViemWalkthrough.makeBlobVersionedHashes.
    apply only_bind; [by apply only_call|]. intros kzg.
    apply only_bind; [apply only_lift|]. intros blobs.
    apply only_bind; [by apply commitments_of_calls|]. intros cs.
    calls.
  - unfold ViemKzgProof.KZGProofVerification. calls.
  - intros kzg blob blobs c p ok Hkzg Hblobs Hc Hp Hok.
    unfold ViemKzgProof.KZGProofVerification.
    step Hkzg. step Hblobs. cbn [lookup list_lookup defined].
    rewrite result_bind, result_lift. cbv beta iota.
    step Hc. step Hp. by rewrite result_bind, Hok.
Qed.

(** ** [equalHex] as a relation *)

(** X14. On hex strings [equalHex] is an equivalence: every string equals
    itself, the order of the operands does not matter, and two strings
    equal to a third are equal to each other.  A string always equals its
    own lower-casing. *)
Theorem equalHex_equivalence (a b c : Hex) :
  equalHex (Some a) (Some a) = Ok true ∧
  equalHex (Some a) (Some b) = equalHex (Some b) (Some a) ∧
  (equalHex (Some a) (Some b) = Ok true →
   equalHex (Some b) (Some c) = Ok true →
   equalHex (Some a) (Some c) = Ok true) ∧
  equalHex (Some a) (Some (toLowerCase a)) = Ok true.
Proof.
  rewrite !equalHex_defined. split; [by rewrite String.eqb_refl|].
  split; [by rewrite String.eqb_sym|]. split.
  - intros [= H1%String.eqb_eq] [= H2%String.eqb_eq].
    f_equal. apply String.eqb_eq. congruence.
  - f_equal. apply String.eqb_eq. clear b c.
    induction a as [|ch a IH]; [done|]. simpl. rewrite <- IH. f_equal.
    symmetry. unfold lower_ascii at 1.
    destruct (is_upper (lower_ascii ch)) eqn:Hu; [|done].
    exfalso. unfold lower_ascii in Hu.
    destruct (is_upper ch) eqn:Hc; [|congruence].
    apply is_upper_spec in Hu, Hc.
    rewrite N_ascii_embedding in Hu by lia. lia.
Qed.


(** ** Printing values that hold bigints *)

Section Stringify.
Context (f : string → JsValue → option (Res unit)).

Abbreviation elements :=
  (fix elements (i : nat) (xs : list JsValue) : option (Res unit) :=
     match xs with
     | [] => Some (Ok tt)
     | x :: rest =>
         match f (index_key i) x with
         | Some (Ok _) => elements (S i) rest
         | other => other
         end
     end).

Abbreviation properties :=
  (fix properties (fs : list (string * JsValue)) : option (Res unit) :=
     match fs with
     | [] => Some (Ok tt)
     | (k, x) :: rest =>
         match f k x with
         | Some (Ok _) => properties rest
         | other => other
         end
     end).

Lemma elements_pass (xs : list JsValue) (i : nat) :
  (∀ x k, In x xs → f k x = Some (Ok tt)) → elements i xs = Some (Ok tt).
Proof.
  revert i. induction xs as [|x xs IH]; intros i Hall; [done|].
  rewrite (Hall x _ (or_introl eq_refl)). apply IH.
  intros y k Hy. apply Hall. by right.
Qed.

Lemma properties_pass (fs : list (string * JsValue)) :
  (∀ k x k', In (k, x) fs → f k' x = Some (Ok tt)) →
  properties fs = Some (Ok tt).
Proof.
  induction fs as [|[k x] fs IH]; intros Hall; [done|].
  rewrite (Hall k x k (or_introl eq_refl)). apply IH.
  intros k1 y k2 Hy. apply (Hall k1). by right.
Qed.

Lemma elements_throw (P : JsValue → bool) (xs : list JsValue) (i : nat) (e : string) :
  (∀ x k, In x xs → P x = false → f k x = Some (Ok tt)) →
  (∀ x k, In x xs → P x = true → f k x = Some (Throw e)) →
  existsb P xs = true → elements i xs = Some (Throw e).
Proof.
  revert i. induction xs as [|x xs IH]; intros i Hno Hyes Hex; [done|].
  simpl in Hex. destruct (P x) eqn:Hx.
  - by rewrite (Hyes x _ (or_introl eq_refl) Hx).
  - rewrite (Hno x _ (or_introl eq_refl) Hx). apply IH; [| |done].
    + intros y k Hy. apply Hno. by right.
    + intros y k Hy. apply Hyes. by right.
Qed.

Lemma properties_throw (P : JsValue → bool) (fs : list (string * JsValue))
    (e : string) :
  (∀ k x k', In (k, x) fs → P x = false → f k' x = Some (Ok tt)) →
  (∀ k x k', In (k, x) fs → P x = true → f k' x = Some (Throw e)) →
  existsb (λ p, P p.2) fs = true → properties fs = Some (Throw e).
Proof.
  induction fs as [|[k x] fs IH]; intros Hno Hyes Hex; [done|].
  simpl in Hex. destruct (P x) eqn:Hx.
  - by rewrite (Hyes k x k (or_introl eq_refl) Hx).
  - rewrite (Hno k x k (or_introl eq_refl) Hx). apply IH; [| |done].
    + intros k1 y k2 Hy. apply (Hno k1). by right.
    + intros k1 y k2 Hy. apply (Hyes k1). by right.
Qed.
End Stringify.

Lemma depth_item (x : JsValue) (items : list JsValue) :
  In x items → depth x ≤ list_max (map depth items).
Proof.
  induction items as [|y items IH]; [done|].
  intros [->|Hin]; simpl; [lia | specialize (IH Hin); lia].
Qed.

Lemma depth_field (k : string) (x : JsValue) (fields : list (string * JsValue)) :
  In (k, x) fields → depth x ≤ list_max (map (λ f, depth f.2) fields).
Proof.
  induction fields as [|y fields IH]; [done|].
  intros [->|Hin]; simpl; [lia | specialize (IH Hin); lia].
Qed.

Lemma stringify_with_replacer (fuel : nat) (key : string) (v : JsValue) :
  depth v < fuel → JSON_stringify fuel bigintReplacer key v = Some (Ok tt).
Proof.
  revert key v. induction fuel as [|fuel IH]; intros key v Hd; [lia|].
  destruct v as [| | | | | |items|fields]; try reflexivity.
  - cbn [JSON_stringify bigintReplacer]. apply elements_pass.
    intros x k Hx. apply IH. apply depth_item in Hx. simpl in Hd. lia.
  - cbn [JSON_stringify bigintReplacer]. apply properties_pass.
    intros k x k' Hx. apply IH. apply depth_field in Hx. simpl in Hd. lia.
Qed.

Lemma stringify_plain (fuel : nat) (key : string) (v : JsValue) :
  depth v < fuel →
  JSON_stringify fuel (λ _ x, x) key v =
  Some (if has_bigint v then Throw TypeError else Ok tt).
Proof.
  revert key v. induction fuel as [|fuel IH]; intros key v Hd; [lia|].
  destruct v as [| | | | | |items|fields]; try reflexivity.
  - cbn [JSON_stringify has_bigint].
    destruct (existsb has_bigint items) eqn:Hex.
    + apply (elements_throw _ has_bigint); [| |done].
      * intros x k Hx Hb. rewrite IH, Hb; [done|].
        apply depth_item in Hx. simpl in Hd. lia.
      * intros x k Hx Hb. rewrite IH, Hb; [done|].
        apply depth_item in Hx. simpl in Hd. lia.
    + apply elements_pass. intros x k Hx. rewrite IH.
      * assert (has_bigint x = false) as ->; [|done].
        destruct (has_bigint x) eqn:Hb; [|done].
        assert (existsb has_bigint items = true); [|congruence].
        apply existsb_exists. eauto.
      * apply depth_item in Hx. simpl in Hd. lia.
  - cbn [JSON_stringify has_bigint].
    destruct (existsb _ fields) eqn:Hex.
    + apply (properties_throw _ has_bigint); [| |done].
      * intros k x k' Hx Hb. rewrite IH, Hb; [done|].
        apply depth_field in Hx. simpl in Hd. lia.
      * intros k x k' Hx Hb. rewrite IH, Hb; [done|].
        apply depth_field in Hx. simpl in Hd. lia.
    + apply properties_pass. intros k x k' Hx. rewrite IH.
      * assert (has_bigint x = false) as ->; [|done].
        destruct (has_bigint x) eqn:Hb; [|done].
        assert (existsb (λ f, has_bigint f.2) fields = true); [|congruence].
        apply existsb_exists. by exists (k, x).
      * apply depth_field in Hx. simpl in Hd. lia.
Qed.

(** X15. [bigintReplacer] is what lets the scripts print transactions:
    with it, [JSON.stringify] gets through every value, however the
    bigints are nested in arrays and objects; without a replacer it throws
    a [TypeError] exactly on the values that hold a bigint somewhere.  The
    replacer leaves every value other than a bigint as it is and turns a
    bigint into its decimal digits.  (The pass is bounded by fuel: any
    fuel above the nesting depth gives these results.) *)
Theorem bigintReplacer_makes_printable (fuel : nat) (key : string) (v : JsValue) :
  depth v < fuel →
  JSON_stringify fuel bigintReplacer key v = Some (Ok tt) ∧
  JSON_stringify fuel (λ _ x, x) key v
  = Some (if has_bigint v then Throw TypeError else Ok tt) ∧
  (∀ n, bigintReplacer key (JsBigInt n) = JsString (bigint_toString n)) ∧
  ((∀ n, v ≠ JsBigInt n) → bigintReplacer key v = v).
Proof.
  intros Hd. split; [by apply stringify_with_replacer|].
  split; [by apply stringify_plain|]. split; [done|].
  intros Hv. destruct v; try done. by destruct (Hv n).
Qed.

Lemma bigintReplacer_makes_printable_witness :
  JSON_stringify 3 bigintReplacer ""
    (JsObject [("gas", JsBigInt 21000);
               ("blobVersionedHashes", JsArray [JsString "0x01"; JsBigInt (-5)])])
  = Some (Ok tt) ∧
  JSON_stringify 3 (λ _ x, x) ""
    (JsObject [("gas", JsBigInt 21000);
               ("blobVersionedHashes", JsArray [JsString "0x01"; JsBigInt (-5)])])
  = Some (Throw TypeError) ∧
  bigintReplacer "gas" (JsBigInt (-5)) = JsString "-5".
Proof.
  destruct (bigintReplacer_makes_printable 3 ""
    (JsObject [("gas", JsBigInt 21000);
               ("blobVersionedHashes", JsArray [JsString "0x01"; JsBigInt (-5)])]))
    as (H1 & H2 & H3 & _); [simpl; lia|].
  split; [exact H1|]. split; [exact H2|]. reflexivity.
Defined.


(** ** The further properties on the concrete instance *)

Lemma manual_versioned_hash_shape_witness :
  manual_versioned_hash (Ref.env Ref.key None) [x01]
    (inr (list_byte_of_string "hell"))
  = ([], Ok "0x016c6c6568").
Proof.
  destruct (manual_versioned_hash_shape (Ref.env Ref.key None) [x01]
              (inr (list_byte_of_string "hell")) "0xa56c6c6568"
              (Ref.hash (list_byte_of_string "hell")) eq_refl eq_refl)
    as (out & Hrun & _ & _ & _ & Hout).
  rewrite Hrun, (Hout eq_refl). reflexivity.
Defined.

Lemma undefined_versioned_hash_witness :
  experiment2 (Ref.env Ref.key None) [x01] Ref.hello
    {| versionedHash := None; commitment := "0x68656c6c"; proof := "0x6c6c6568" |}
  = ([Called LibCKzg "blobToKzgCommitment"], Throw TypeError).
Proof.
  apply (undefined_versioned_hash (Ref.env Ref.key None) [x01] Ref.hello _
           (list_byte_of_string "hello world") (list_byte_of_string "hell")
           "0xa56c6c6568" (Ref.hash (list_byte_of_string "hell")));
    reflexivity.
Defined.

Lemma experiment3_with_proof_outcome_witness :
  result (experiment3_with_proof Ref.env_rejecting_blob [x01] Ref.hello
            Ref.hello_vars)
  = Throw "Proof verification failed".
Proof.
  rewrite (experiment3_with_proof_outcome Ref.env_rejecting_blob Ref.hello
             Ref.hello_vars "0xa56c6c6568"
             (Ref.hash (list_byte_of_string "hell"))
             (list_byte_of_string "hello world")
             (list_byte_of_string "hell") (rev (list_byte_of_string "hell"))
             "0x016c6c6568" false);
    reflexivity.
Defined.

Lemma experiment7_batch_witness :
  result (Fusaka.experiment7 (Ref.env Ref.key None) Ref.hello Ref.hello_vars)
  = Ok tt.
Proof.
  pose (b := list_byte_of_string "hello world").
  rewrite (proj1 (experiment7_batch (Ref.env Ref.key None) Ref.hello
                    Ref.hello_vars b (Ref.cells_of b)
                    (map (λ c, rev (Ref.commit b) ++ c) (Ref.cells_of b))
                    eq_refl eq_refl)
             (list_byte_of_string "hell") eq_refl).
  reflexivity.
Defined.

Lemma recovery_input_witness :
  length (slice (Ref.cells_of (list_byte_of_string "hello world")) 64 128) = 64.
Proof.
  pose (b := list_byte_of_string "hello world").
  destruct (recovery_input (Ref.env Ref.key None) Ref.hello b (Ref.cells_of b)
              (map (λ c, rev (Ref.commit b) ++ c) (Ref.cells_of b))
              eq_refl eq_refl)
    as (_ & _ & Hhalf & _).
  apply Hhalf; vm_compute; lia.
Defined.

Lemma evaluation_point_witness :
  Index.zBytes (Ref.env Ref.key None) Ref.hello
  = Ok (list_byte_of_string "hello world") ∧
  Fusaka.zBytes (Ref.env Ref.key None) = Ok [x04].
Proof.
  destruct (evaluation_point (Ref.env Ref.key None) Ref.hello
              (list_byte_of_string "hello world") "04" [x04]
              eq_refl eq_refl eq_refl)
    as (_ & Hi & Hf & _).
  split; [apply Hi; vm_compute; lia | exact Hf].
Defined.

Lemma index_run_certifies_witness :
  ∃ blob c p request vh,
    viem.toBlobs Ref.vm (viem.stringToHex Ref.vm "hello world") = Ok [blob] ∧
    viem.prepareTransactionRequest Ref.vm
      (blob_transaction Ref.vm Ref.account [blob] (cKzg.as_kzg Ref.native)
         (Some [ {| sc_blob := blob; sc_commitment := Ref.bytesToHex c;
                    sc_proof := Ref.bytesToHex p |} ])) = Ok request ∧
    first_of (blobVersionedHashes request) = Ok (Some vh).
Proof.
  destruct (index_run_certifies (Ref.env Ref.key None))
    as (privateKey & tag & account & wasm & blob & b & c & cb & p & vh
        & (_ & _ & _ & Hacc & _ & Hblob) & _
        & (request & tx & txHash & hashes & onchain & Hreq & Hfirst & _) & _).
  - vm_compute. reflexivity.
  - injection Hacc as <-. by exists blob, c, p, request, vh.
Defined.

Lemma fusaka_run_certifies_witness :
  ∃ blob, viem.toBlobs (V (Ref.env Ref.key None))
            (viem.stringToHex (V (Ref.env Ref.key None)) Fusaka.rawBlob)
          = Ok [blob].
Proof.
  destruct (fusaka_run_certifies (Ref.env Ref.key None)
              (ref_roundtrip _) (ref_lowercase _))
    as (blob & b & cells & proofs & c & commitments & recovered & rproofs
        & Hblob & _).
  - vm_compute. reflexivity.
  - by exists blob.
Defined.

Lemma ethers_main_calls_witness :
  ∃ wallet tx rawTx,
    result (EthersTx.build_transaction (Ref.env Ref.key (Some "4844")))
    = Ok (wallet, tx) ∧
    ethers.wallet_signTransaction Ref.eth wallet tx = Ok rawTx.
Proof.
  apply (proj2 (proj2 (ethers_main_calls (Ref.env Ref.key (Some "4844"))))).
  vm_compute. repeat first [left; reflexivity | right].
Defined.

Lemma walkthrough_broadcasts_witness :
  ∃ account kzg blobs request tx,
    viem.privateKeyToAccount Ref.vm "0x01" = Ok account ∧
    loadKZG (Ref.env Ref.key None) = Ok kzg ∧
    viem.prepareTransactionRequest Ref.vm
      (blob_transaction Ref.vm account blobs (adaptedKzg Ref.vm kzg) None)
    = Ok request ∧
    signTransaction account request = Ok tx.
Proof.
  apply (proj1 (walkthrough_broadcasts (Ref.env Ref.key None) "0x01")).
  vm_compute. repeat first [left; reflexivity | right].
Defined.

Lemma equalHex_equivalence_witness :
  equalHex (Some "0xAB") (Some "0xab") = Ok true.
Proof.
  apply (proj1 (proj2 (proj2 (equalHex_equivalence "0xAB" "0xaB" "0xab"))));
    reflexivity.
Defined.


(** ** The sending script and failures of the set-up *)

(** X16. The sending script makes at most two calls, [loadKZG] and then
    one [sendTransaction]: it does not compute with KZG itself (viem
    does, through the adapters) and broadcasts at most once.  The
    transaction goes out only with a non-empty key from which an account
    could be derived, and it carries the blobs of [toBlobs] with the
    adapted kzg-wasm. *)
Theorem send_script_calls (E : Env) :
  (trace (ViemSend.script E) = [] ∨
   trace (ViemSend.script E) = [Called LibWasmKzg "loadKZG"] ∨
   trace (ViemSend.script E) = [Called LibWasmKzg "loadKZG";
                                Called LibRpc "sendTransaction"]) ∧
  (In (Called LibRpc "sendTransaction") (trace (ViemSend.script E)) →
   ∃ key account kzg blobs,
     PRIVATE_KEY E = Some key ∧ key ≠ "" ∧
     viem.privateKeyToAccount (V E) key = Ok account ∧
     loadKZG E = Ok kzg ∧
     viem.toBlobs (V E) (viem.stringToHex (V E) "hello world") = Ok blobs ∧
     result (ViemSend.script E) =
     match viem.sendTransaction (V E)
             (blob_transaction (V E) account blobs (adaptedKzg (V E) kzg) None)
     with
     | Ok _ => Ok tt
     | Throw e => Throw e
     end).
Proof.
  split.
  - unfold ViemSend.script, ViemSend.signTransaction, require_PRIVATE_KEY.
    destruct (PRIVATE_KEY E) as [[|c k]|]; [by left| |by left].
    change (ret (String c k)) with (lift (Ok (String c k))).
    rewrite bind_lift.
    destruct (viem.privateKeyToAccount (V E) _) as [account|]; [|by left].
    rewrite bind_lift.
    destruct (loadKZG E) as [kzg|]; [|by right; left].
    rewrite bind_call.
    destruct (viem.toBlobs (V E) _) as [blobs|]; [|by right; left].
    rewrite bind_lift.
    right; right. cbn [trace fst].
    by destruct (viem.sendTransaction (V E) _).
  - unfold ViemSend.script.
    destruct (result (require_PRIVATE_KEY E)) as [key|] eqn:Hkey.
    + pose proof (require_PRIVATE_KEY_returned E key Hkey) as [Hk Hne].
      rewrite (require_PRIVATE_KEY_set E key Hk Hne), bind_lift.
      unfold ViemSend.signTransaction.
      destruct (viem.privateKeyToAccount (V E) key) as [account|] eqn:Hacc;
        [|by intros []].
      rewrite bind_lift.
      destruct (loadKZG E) as [kzg|] eqn:Hkzg; [|by intros [|[]]].
      rewrite bind_call.
      destruct (viem.toBlobs (V E) _) as [blobs|] eqn:Hblobs;
        [|by intros [|[]]].
      rewrite bind_lift. intros _.
      exists key, account, kzg, blobs. repeat split; try done.
      cbn [result snd].
      by destruct (viem.sendTransaction (V E) _).
    + unfold require_PRIVATE_KEY in *.
      destruct (PRIVATE_KEY E) as [[|c k]|]; try discriminate Hkey;
        by intros [].
Qed.

Lemma send_script_calls_witness :
  result (ViemSend.script (Ref.env Ref.key None)) = Ok tt.
Proof.
  destruct (proj2 (send_script_calls (Ref.env Ref.key None)))
    as (key & account & kzg & blobs & _ & _ & Hacc & Hkzg & Hblobs & Hrun).
  - vm_compute. repeat first [left; reflexivity | right].
  - rewrite Hrun. injection Hacc as <-. injection Hkzg as <-.
    injection Hblobs as <-. reflexivity.
Defined.

(** X17. The two experiment scripts fail early and in order.  With the
    key set and the version byte decoded, a key from which no account can
    be derived ends the run before any library is called; a trusted
    set-up that c-kzg cannot load ends it before kzg-wasm is loaded; a
    kzg-wasm that cannot be loaded ends it before its trusted set-up.
    The error is the library's own in each case. *)
Theorem experiment_scripts_fail_early (s : Script) (E : Env) (key : Hex)
    (tag : ByteArray) (e : string) :
  s = index_ts ∨ s = fusaka_ts →
  PRIVATE_KEY E = Some key → key ≠ "" →
  VERSIONED_HASH_VERSION_KZG E = Ok tag →
  (viem.privateKeyToAccount (V E) key = Throw e →
   run s E = ([], Throw e)) ∧
  (∀ account,
     viem.privateKeyToAccount (V E) key = Ok account →
     cKzg.loadTrustedSetup (K E) 0 (mainnetTrustedSetupPath E) = Throw e →
     run s E = ([Called LibCKzg "loadTrustedSetup"], Throw e)) ∧
  (∀ account,
     viem.privateKeyToAccount (V E) key = Ok account →
     cKzg.loadTrustedSetup (K E) 0 (mainnetTrustedSetupPath E) = Ok tt →
     loadKZG E = Throw e →
     run s E = ([Called LibCKzg "loadTrustedSetup";
                 Called LibWasmKzg "loadKZG"], Throw e)).
Proof.
  intros Hs Hk Hne Htag.
  assert (∀ t, (∀ data, setup E key data = (t, Throw e)) →
               run s E = (t, Throw e)) as Hrun.
  { intros t Hsetup.
    destruct Hs as [-> | ->]; cbn [run];
      unfold Index.script, Fusaka.script,
        Index.experimentWithBlob, Fusaka.experimentWithBlob;
      rewrite (require_PRIVATE_KEY_set E key Hk Hne), bind_lift, Htag, bind_lift;
      by rewrite Hsetup. }
  split; [|split].
  - intros Ha. apply Hrun. intros data. unfold setup. by rewrite Ha.
  - intros account Ha Hc. apply Hrun. intros data. unfold setup.
    by rewrite Ha, bind_lift, Hc.
  - intros account Ha Hc Hw. apply Hrun. intros data. unfold setup.
    by rewrite Ha, bind_lift, Hc, bind_call, Hw.
Qed.

Lemma experiment_scripts_fail_early_witness :
  run fusaka_ts
    {| PRIVATE_KEY := Ref.key; argv2 := None; resolve := λ p, p;
       rootsOfUnity := []; V := Ref.vm; K := Ref.native;
       loadKZG := Throw "kzg-wasm failed to load"; Eth := Ref.eth |} =
  ([Called LibCKzg "loadTrustedSetup"; Called LibWasmKzg "loadKZG"],
   Throw "kzg-wasm failed to load").
Proof.
  eapply (experiment_scripts_fail_early fusaka_ts _ "0x01" [x01]);
    [by right | reflexivity | discriminate | reflexivity ..].
Defined.
